(** * Simple-Japanese-ASR: the subtitle pipeline of [main.py]

    A shallow embedding of [main.py] and the properties of its
    timestamp formatter, audio stream selector, audio extractor,
    transcriber and batch loop.

    Python values are modelled as follows.
    - [float] is an IEEE 754 binary64 value, given by the Standard
      Library's [spec_float] at precision 53 and maximal exponent 1024;
      the arithmetic is the correctly rounded one of [SpecFloat].
    - [int] is [Z]; [//] and [%] by a positive constant are [Z.div] and
      [Z.modulo] (both round towards minus infinity, as Python does).
    - [str] is [string].
    - A call that may raise returns a [result]: [Return v] or [Raise e].
    - The file system is a finite map from paths to file contents.
    - The external collaborators (ffmpeg, whisper, the console, the
      operating system) answer from a script: each selected video comes
      with the answers the collaborators give while it is processed.

    What the embedding leaves out: the probe output is taken to be well
    formed (every stream has a [codec_type]); [print] and [f.write] do
    not fail; [assert] statements are executed (the interpreter does not
    run with [-O]); the run is not interrupted from outside; and the
    directories of the disk are not part of the file map, so that the
    creation of the output directory shows in the trace only. *)

From Stdlib Require Import ZArith Lia List String Ascii Bool.
From Stdlib Require Import SpecFloat.
From Stdlib Require Import Decimal DecimalString DecimalN.
From stdpp Require Import gmap strings.

Local Open Scope Z_scope.

(** ** Python exceptions and results *)

Inductive py_exception : Type :=
| AssertionError (msg : string)
| OverflowError
| ValueError
| EOFError
| OSError (msg : string)
| FfmpegError (stderr : string)   (* ffmpeg.Error *)
| ExternalError (msg : string).   (* any other Exception of a collaborator *)

Inductive result (A : Type) : Type :=
| Return (a : A)
| Raise (e : py_exception).

Arguments Return {A} a.
Arguments Raise {A} e.

Definition bind {A B : Type} (r : result A) (k : A -> result B) : result B :=
  match r with
  | Return a => k a
  | Raise e => Raise e
  end.

Declare Scope result_scope.
Delimit Scope result_scope with result.
Bind Scope result_scope with result.

Notation "x <- r ;; k" := (bind r (fun x => k))
  (at level 60, r at next level, right associativity) : result_scope.

(** ** Python floats *)

Module Float.

Definition prec : Z := 53.
Definition emax : Z := 1024.

Definition float : Type := spec_float.

(** The float nearest to an integer ([float(n)], or the literal [n.0]). *)
Definition of_Z (n : Z) : float := binary_normalize prec emax n 0 false.

(** The float nearest to the decimal [num / den], as the parser of
    float literals gives it when [num] and [den] are themselves floats:
    the division of two exact floats is correctly rounded. *)
Definition of_ratio (num den : Z) : float :=
  SFdiv prec emax (of_Z num) (of_Z den).

Definition zero : float := S754_zero false.
Definition mul (x y : float) : float := SFmul prec emax x y.

(** [x >= y]; false when either side is a NaN. *)
Definition ge (x y : float) : bool := SFleb y x.
(** [x < y]; false when either side is a NaN. *)
Definition lt (x y : float) : bool := SFltb x y.

(** A value of the binary64 format: the mantissa is canonical and the
    exponent is in range. *)
Definition is_binary64 (x : float) : bool := valid_binary prec emax x.

(** [m / 2^k] rounded to the nearest integer, ties to the even one
    ([k > 0], [m >= 0]). *)
Definition round_half_even_shift (m k : Z) : Z :=
  let d := 2 ^ k in
  let q := m / d in
  let r := m mod d in
  match (2 * r ?= d) with
  | Lt => q
  | Gt => q + 1
  | Eq => if Z.even q then q else q + 1
  end.

(** [round(x)] with one argument: the nearest integer, ties to even;
    an infinity raises [OverflowError] and a NaN raises [ValueError]. *)
Definition round (x : float) : result Z :=
  match x with
  | S754_zero _ => Return 0
  | S754_infinity _ => Raise OverflowError
  | S754_nan => Raise ValueError
  | S754_finite s m e =>
      Return (cond_Zopp s
                (if 0 <=? e then Zpos m * 2 ^ e
                 else round_half_even_shift (Zpos m) (- e)))
  end.

End Float.

(** ** Formatting integers: the format specifications [02d] and [03d] *)

(** The decimal digits of a natural number, without leading zeros. *)
Definition digits (n : N) : string := NilZero.string_of_uint (N.to_uint n).

Fixpoint zeros (k : nat) : string :=
  match k with
  | O => EmptyString
  | S k' => String "0" (zeros k')
  end.

(** Left padding with ["0"] up to a minimal width. *)
Definition zfill (width : nat) (s : string) : string :=
  zeros (width - String.length s) +:+ s.

(** [format(n, "0<width>d")]: at least [width] characters, the sign
    first and the zeros after it. *)
Definition format_d (width : nat) (n : Z) : string :=
  if n <? 0 then String "-" (zfill (width - 1) (digits (Z.to_N (- n))))
  else zfill width (digits (Z.to_N n)).

(** ** [format_srt_timestamp] (main.py, lines 19-33) *)

Definition format_srt_timestamp (seconds : Float.float) : result string :=
  if negb (Float.ge seconds Float.zero)
  then Raise (AssertionError "non-negative timestamp expected")
  else
    milliseconds <- Float.round (Float.mul seconds (Float.of_Z 1000)) ;;
    let hours := milliseconds / 3600000 in
    let milliseconds := milliseconds mod 3600000 in
    let minutes := milliseconds / 60000 in
    let milliseconds := milliseconds mod 60000 in
    let seconds := milliseconds / 1000 in
    let milliseconds := milliseconds mod 1000 in
    Return (format_d 2 hours +:+ ":" +:+ format_d 2 minutes +:+ ":"
            +:+ format_d 2 seconds +:+ "," +:+ format_d 3 milliseconds).

(** ** The pattern [\d{2}:\d{2}:\d{2},\d{3}] and the parser of the
       round trip *)

Definition is_digit (c : ascii) : bool :=
  let n := nat_of_ascii c in (48 <=? n)%nat && (n <=? 57)%nat.

Inductive regex_item : Type :=
| Digits (count : nat)      (* \d{count} *)
| Lit (c : ascii).          (* a literal character *)

Fixpoint match_digits (count : nat) (s : string) : option string :=
  match count with
  | O => Some s
  | S k =>
      match s with
      | String c rest => if is_digit c then match_digits k rest else None
      | EmptyString => None
      end
  end.

(** Matches one item at the start of [s] and returns what is left. *)
Definition match_item (it : regex_item) (s : string) : option string :=
  match it with
  | Digits count => match_digits count s
  | Lit c =>
      match s with
      | String c' rest => if Ascii.eqb c c' then Some rest else None
      | EmptyString => None
      end
  end.

Fixpoint match_items (its : list regex_item) (s : string) : option string :=
  match its with
  | [] => Some s
  | it :: its' =>
      match match_item it s with
      | Some rest => match_items its' rest
      | None => None
      end
  end.

(** The whole string matches the items ([re.fullmatch]). *)
Definition fullmatch (its : list regex_item) (s : string) : bool :=
  match match_items its s with
  | Some EmptyString => true
  | _ => false
  end.

(** A prefix of the string matches the items ([re.match]). *)
Definition prefix_match (its : list regex_item) (s : string) : bool :=
  match match_items its s with
  | Some _ => true
  | None => false
  end.

Definition srt_pattern : list regex_item :=
  [Digits 2; Lit ":"; Digits 2; Lit ":"; Digits 2; Lit ","; Digits 3].

(** The longest prefix of decimal digits, and the rest. *)
Fixpoint span_digits (s : string) : string * string :=
  match s with
  | String c rest =>
      if is_digit c
      then let '(ds, tl) := span_digits rest in (String c ds, tl)
      else (EmptyString, s)
  | EmptyString => (EmptyString, EmptyString)
  end.

(** A non-empty run of digits read as a number. *)
Definition number_of_digits (ds : string) : option Z :=
  match ds with
  | EmptyString => None
  | _ =>
      match NilEmpty.uint_of_string ds with
      | Some d => Some (Z.of_N (N.of_uint d))
      | None => None
      end
  end.

(** Reads a number, then the separator [sep]. *)
Definition read_field (sep : ascii) (s : string) : option (Z * string) :=
  let '(ds, tl) := span_digits s in
  match number_of_digits ds, tl with
  | Some n, String c rest => if Ascii.eqb c sep then Some (n, rest) else None
  | _, _ => None
  end.

(** The parser of the round trip, as the specification words it: the
    fields [hours:minutes:seconds,milliseconds] read back and combined
    as [hours*3600000 + minutes*60000 + seconds*1000 + milliseconds]. *)
Definition parse_srt_timestamp (s : string) : option Z :=
  match read_field ":" s with
  | Some (hours, s1) =>
      match read_field ":" s1 with
      | Some (minutes, s2) =>
          match read_field "," s2 with
          | Some (seconds, s3) =>
              let '(ds, tl) := span_digits s3 in
              match number_of_digits ds, tl with
              | Some milliseconds, EmptyString =>
                  Some (hours * 3600000 + minutes * 60000
                        + seconds * 1000 + milliseconds)
              | _, _ => None
              end
          | None => None
          end
      | None => None
      end
  | None => None
  end.

(** ** The runtime functions the program calls

    [int], [str.strip], [str.upper] and the functions of [os.path]
    belong to the Python runtime and depend on the platform; the program
    is embedded over any implementation of them. *)

Record python : Type := Python {
  py_int : string -> option Z;          (* int(s); None is ValueError *)
  py_strip : string -> string;          (* s.strip() *)
  py_upper : string -> string;          (* s.upper() *)
  path_basename : string -> string;     (* os.path.basename *)
  path_splitext : string -> string * string;  (* os.path.splitext *)
  path_join : string -> string -> string;     (* os.path.join *)
  os_makedirs : string -> result unit;  (* os.makedirs(path, exist_ok=True) *)
  tk_dialog : result unit   (* tk.Tk() and askopenfilenames return or raise *)
}.

(** ** Configuration (main.py, lines 11-13) *)

Definition OUTPUT_DIR : string := "Z:\ASG\Temp".
Definition MODEL_SIZE : string := "large-v3".
Definition LANGUAGE : string := "ja".

(** ** The collaborators and what they answer *)

(** One entry of [probe['streams']]. *)
Record stream : Type := Stream {
  codec_type : string;
  tag_language : option string;
  tag_title : option string;
  codec_name : option string;
  channel_layout : option string
}.

(** One entry of [result["segments"]]. *)
Record segment : Type := Segment {
  seg_start : Float.float;
  seg_end : Float.float;
  seg_text : string
}.

Inductive probe_answer : Type :=
| ProbeFails (stderr : string)             (* ffmpeg.probe raises ffmpeg.Error *)
| ProbeStreams (streams : list stream)
| ProbeCrashes (msg : string).             (* ffmpeg.probe raises another
                                              exception, such as
                                              FileNotFoundError when ffprobe
                                              is not installed *)

Inductive ffmpeg_answer : Type :=
| SpawnFails (e : py_exception)            (* run_async raises *)
| Exits (stderr_lines : list string) (returncode : Z)
        (written : option string).         (* what it left at the output path *)

Inductive transcribe_answer : Type :=
| TranscribeFails (e : py_exception)       (* model.transcribe raises *)
| Segments (segments : list segment).

(** What the collaborators answer while one video is processed. *)
Record answers : Type := Answers {
  probe : probe_answer;
  ffmpeg : ffmpeg_answer;
  whisper : transcribe_answer;
  open_srt : option string;                (* Some msg: open(..., "w") raises OSError *)
  remove_denied : option string            (* Some msg: os.remove raises OSError *)
}.

(** ** Console lines and the trace of a run *)

Inductive message : Type :=
| MsgProbing (name : string)
| MsgNoAudioStreams
| MsgAutoSelect
| MsgPleaseSelect
| MsgMenuLine (number : Z) (lang title codec channels : string)
| MsgInvalidChoice (count : nat)
| MsgInvalidInput
| MsgProbeError (stderr : string)
| MsgExtracting (stream_index : Z)
| MsgProgress (text : string)
| MsgNewline
| MsgAudioSaved (path : string)
| MsgFfmpegFailed (returncode : Z)
| MsgExtractionError (e : py_exception)
| MsgTranscribing
| MsgSubtitlesSaved (path : string)
| MsgTranscriptionError (e : py_exception)
| MsgNoFilesSelected
| MsgLoadingModel (size : string)
| MsgModelLoaded (cuda : bool)
| MsgModelLoadFailed (e : py_exception)
| MsgSkipping (video_path : string)
| MsgDeleted (path : string)
| MsgCouldNotDelete (path : string) (e : py_exception)
| MsgSeparator
| MsgAllDone.

Inductive event : Type :=
| EvPrint (m : message)                    (* print / sys.stdout.write *)
| EvProbe (video_path : string)            (* ffmpeg.probe *)
| EvInput (count : nat)                    (* input("Enter your choice (1-count): ") *)
| EvSpawn (video_path audio_output_path : string) (stream_index : Z)
| EvTranscribe (audio_path language : string)  (* model.transcribe *)
| EvOpenWrite (path : string)              (* open(path, "w") *)
| EvRemove (path : string)                 (* os.remove *)
| EvMakedirs (path : string)
| EvSelectFiles
| EvLoadModel (size : string)
| EvNextFile.                              (* the loop body is left *)

(** ** The state of a run and its monad *)

Record world : Type := World {
  files : gmap string string;              (* path to contents *)
  stdin : list string                      (* the lines the operator will type *)
}.

(** A computation emits events, changes the world and returns or raises. *)
Definition M (A : Type) : Type := world -> list event * world * result A.

Definition ret {A : Type} (a : A) : M A := fun w => ([], w, Return a).

Definition raise {A : Type} (e : py_exception) : M A :=
  fun w => ([], w, Raise e).

Definition mbind {A B : Type} (m : M A) (k : A -> M B) : M B :=
  fun w =>
    let '(ev1, w1, r) := m w in
    match r with
    | Return a => let '(ev2, w2, r2) := k a w1 in (ev1 ++ ev2, w2, r2)
    | Raise e => (ev1, w1, Raise e)
    end.

Declare Scope M_scope.
Delimit Scope M_scope with M.
Bind Scope M_scope with M.

Notation "x <- m ;; k" := (mbind m (fun x => k))
  (at level 60, m at next level, right associativity) : M_scope.

Definition emit (e : event) : M unit := fun w => ([e], w, Return tt).

Definition print (m : message) : M unit := emit (EvPrint m).

Definition lift {A : Type} (r : result A) : M A := fun w => ([], w, r).

(** [try: body except <catches>: handler]. *)
Definition try_except {A : Type} (catches : py_exception -> bool)
    (body : M A) (handler : py_exception -> M A) : M A :=
  fun w =>
    let '(ev1, w1, r) := body w in
    match r with
    | Return a => (ev1, w1, Return a)
    | Raise e =>
        if catches e
        then let '(ev2, w2, r2) := handler e w1 in (ev1 ++ ev2, w2, r2)
        else (ev1, w1, Raise e)
    end.

Definition is_ffmpeg_error (e : py_exception) : bool :=
  match e with FfmpegError _ => true | _ => false end.

Definition is_os_error (e : py_exception) : bool :=
  match e with OSError _ => true | _ => false end.

(** Every exception of the model derives from [Exception]. *)
Definition is_exception (e : py_exception) : bool := true.

(** ** The collaborators as computations *)

Definition ffmpeg_probe (ans : answers) (video_path : string)
  : M (list stream) :=
  fun w =>
    match probe ans with
    | ProbeFails stderr => ([EvProbe video_path], w, Raise (FfmpegError stderr))
    | ProbeStreams streams => ([EvProbe video_path], w, Return streams)
    | ProbeCrashes msg => ([EvProbe video_path], w, Raise (ExternalError msg))
    end.

(** Starts ffmpeg and lets it run: the status lines and the exit code are
    what the caller will read, the output file is what it left on disk. *)
Definition ffmpeg_run_async (ans : answers)
    (video_path audio_output_path : string) (stream_index : Z)
  : M (list string * Z) :=
  fun w =>
    let ev := [EvSpawn video_path audio_output_path stream_index] in
    match ffmpeg ans with
    | SpawnFails e => (ev, w, Raise e)
    | Exits stderr_lines returncode written =>
        let files' :=
          match written with
          | Some contents => <[audio_output_path := contents]> (files w)
          | None => files w
          end in
        (ev, World files' (stdin w), Return (stderr_lines, returncode))
    end.

Definition model_transcribe (ans : answers) (audio_path language : string)
  : M (list segment) :=
  fun w =>
    match whisper ans with
    | TranscribeFails e => ([EvTranscribe audio_path language], w, Raise e)
    | Segments segments => ([EvTranscribe audio_path language], w, Return segments)
    end.

(** [open(path, "w")]: creates the file or empties it. *)
Definition open_write (ans : answers) (path : string) : M unit :=
  fun w =>
    match open_srt ans with
    | Some msg => ([EvOpenWrite path], w, Raise (OSError msg))
    | None => ([EvOpenWrite path],
               World (<[path := EmptyString]> (files w)) (stdin w), Return tt)
    end.

(** [f.write(chunk)] on the file opened at [path]. *)
Definition f_write (path chunk : string) : M unit :=
  fun w =>
    let old := default EmptyString (files w !! path) in
    ([], World (<[path := old +:+ chunk]> (files w)) (stdin w), Return tt).

(** [os.remove(path)]: fails on a missing file, or when the system refuses. *)
Definition os_remove (ans : answers) (path : string) : M unit :=
  fun w =>
    match files w !! path with
    | None => ([EvRemove path], w, Raise (OSError "No such file or directory"))
    | Some _ =>
        match remove_denied ans with
        | Some msg => ([EvRemove path], w, Raise (OSError msg))
        | None => ([EvRemove path], World (delete path (files w)) (stdin w),
                   Return tt)
        end
    end.

(** ** [select_audio_stream] (main.py, lines 45-81) *)

(** The menu, one line per audio stream (lines 61-67). *)
Fixpoint menu_lines (py : python) (i : Z) (audio_streams : list stream)
  : list event :=
  match audio_streams with
  | [] => []
  | s :: rest =>
      let lang := default "unknown"%string (tag_language s) in
      let title := default "No Title"%string (tag_title s) in
      let codec := default "N/A"%string (codec_name s) in
      let channels := default "N/A"%string (channel_layout s) in
      EvPrint (MsgMenuLine (i + 1) (py_upper py lang) title codec channels)
        :: menu_lines py (i + 1) rest
  end.

(** The loop [while True] of lines 69-77 over the lines still to be read
    from the console; [input] raises [EOFError] when there is none left. *)
Fixpoint choice_loop (py : python) (count : nat) (lines : list string)
  : list event * list string * result Z :=
  match lines with
  | [] => ([EvInput count], [], Raise EOFError)
  | line :: rest =>
      match py_int py line with
      | Some choice =>
          if (1 <=? choice) && (choice <=? Z.of_nat count)
          then ([EvInput count], rest, Return (choice - 1))
          else
            let '(evs, rest', r) := choice_loop py count rest in
            (EvInput count :: EvPrint (MsgInvalidChoice count) :: evs, rest', r)
      | None =>
          let '(evs, rest', r) := choice_loop py count rest in
          (EvInput count :: EvPrint MsgInvalidInput :: evs, rest', r)
      end
  end.

Definition ask_choice (py : python) (count : nat) : M Z :=
  fun w =>
    let '(evs, rest, r) := choice_loop py count (stdin w) in
    (evs, World (files w) rest, r).

Definition is_audio (s : stream) : bool := String.eqb (codec_type s) "audio".

Definition select_audio_stream (py : python) (ans : answers)
    (video_path : string) : M (option Z) :=
  (_ <- print (MsgProbing (path_basename py video_path)) ;;
   try_except is_ffmpeg_error
     (streams <- ffmpeg_probe ans video_path ;;
      let audio_streams := List.filter is_audio streams in
      match audio_streams with
      | [] => _ <- print MsgNoAudioStreams ;; ret None
      | [_] => _ <- print MsgAutoSelect ;; ret (Some 0)
      | _ =>
          _ <- print MsgPleaseSelect ;;
          _ <- (fun w => (menu_lines py 0 audio_streams, w, Return tt)) ;;
          choice <- ask_choice py (List.length audio_streams) ;;
          ret (Some choice)
      end)
     (fun e =>
        match e with
        | FfmpegError stderr => _ <- print (MsgProbeError stderr) ;; ret None
        | _ => raise e
        end))%M.

(** ** [extract_audio] (main.py, lines 84-116) *)

(** [needle in text]. *)
Fixpoint contains (needle text : string) : bool :=
  if String.prefix needle text then true
  else
    match text with
    | EmptyString => false
    | String _ rest => contains needle rest
    end.

(** The progress loop of lines 96-102 over the status lines of ffmpeg. *)
Fixpoint progress_lines (py : python) (stderr_lines : list string)
  : list event :=
  match stderr_lines with
  | [] => []
  | line :: rest =>
      let text := py_strip py line in
      if contains "time=" text && contains "speed=" text
      then EvPrint (MsgProgress text) :: progress_lines py rest
      else progress_lines py rest
  end.

Definition extract_audio (py : python) (ans : answers)
    (video_path audio_output_path : string) (stream_index : Z) : M bool :=
  (_ <- print (MsgExtracting stream_index) ;;
   try_except is_exception
     (process <- ffmpeg_run_async ans video_path audio_output_path
                   stream_index ;;
      let '(stderr_lines, returncode) := process in
      _ <- (fun w => (progress_lines py stderr_lines, w, Return tt)) ;;
      _ <- print MsgNewline ;;
      if returncode =? 0
      then _ <- print (MsgAudioSaved audio_output_path) ;; ret true
      else _ <- print (MsgFfmpegFailed returncode) ;; ret false)
     (fun e => _ <- print (MsgExtractionError e) ;; ret false))%M.

(** ** [transcribe_and_save_srt] (main.py, lines 119-136) *)

Definition newline : string := String (ascii_of_nat 10) EmptyString.

(** The loop of lines 126-131, from cue number [i]. *)
Fixpoint write_segments (py : python) (path : string) (i : N)
    (segments : list segment) : M unit :=
  match segments with
  | [] => ret tt
  | seg :: rest =>
      (_ <- f_write path (digits i +:+ newline) ;;
       start_time <- lift (format_srt_timestamp (seg_start seg)) ;;
       end_time <- lift (format_srt_timestamp (seg_end seg)) ;;
       _ <- f_write path (start_time +:+ " --> " +:+ end_time +:+ newline) ;;
       _ <- f_write path (py_strip py (seg_text seg) +:+ newline +:+ newline) ;;
       write_segments py path (N.succ i) rest)%M
  end.

Definition transcribe_and_save_srt (py : python) (model : answers)
    (audio_path output_srt_path language : string) : M unit :=
  try_except is_exception
    (_ <- print MsgTranscribing ;;
     segments <- model_transcribe model audio_path language ;;
     _ <- open_write model output_srt_path ;;
     _ <- write_segments py output_srt_path 1 segments ;;
     print (MsgSubtitlesSaved output_srt_path))%M
    (fun e => print (MsgTranscriptionError e)).

(** ** [main] (main.py, lines 139-175) *)

Definition base_name (py : python) (video_path : string) : string :=
  fst (path_splitext py (path_basename py video_path)).

Definition temp_audio_path (py : python) (video_path : string) : string :=
  path_join py OUTPUT_DIR (base_name py video_path +:+ ".wav").

Definition output_srt_path (py : python) (video_path : string) : string :=
  path_join py OUTPUT_DIR (base_name py video_path +:+ ".srt").

(** The deletion of the temporary file, lines 168-172 of the loop body. *)
Definition remove_temp_audio (ans : answers) (temp_audio_path : string)
  : M unit :=
  try_except is_os_error
    (_ <- os_remove ans temp_audio_path ;;
     print (MsgDeleted temp_audio_path))%M
    (fun e => print (MsgCouldNotDelete temp_audio_path e)).

(** The body of the loop of lines 155-173 for one selected video. *)
Definition loop_body (py : python) (video : string * answers) : M unit :=
  let '(video_path, ans) := video in
  (audio_stream_index <- select_audio_stream py ans video_path ;;
   match audio_stream_index with
   | None =>
       _ <- print (MsgSkipping video_path) ;;
       emit EvNextFile
   | Some stream_index =>
       extracted <- extract_audio py ans video_path
                      (temp_audio_path py video_path) stream_index ;;
       _ <- (if extracted : bool
             then
               _ <- transcribe_and_save_srt py ans
                      (temp_audio_path py video_path)
                      (output_srt_path py video_path) LANGUAGE ;;
               remove_temp_audio ans (temp_audio_path py video_path)
             else ret tt) ;;
       _ <- print MsgSeparator ;;
       emit EvNextFile
   end)%M.

Fixpoint for_each_video (py : python) (videos : list (string * answers))
  : M unit :=
  match videos with
  | [] => ret tt
  | video :: rest =>
      (_ <- loop_body py video ;; for_each_video py rest)%M
  end.

(** [os.makedirs(path, exist_ok=True)] (line 140): outside any [try], so
    that what it raises leaves [main]. *)
Definition makedirs (py : python) (path : string) : M unit :=
  fun w => ([EvMakedirs path], w, os_makedirs py path).

(** [select_files] (lines 36-42): the dialog raises, or returns the
    paths that [main] receives as [selected_videos]. *)
Definition select_files (py : python) : M unit :=
  fun w => ([EvSelectFiles], w, tk_dialog py).

(** [selected_videos] pairs each path chosen in the file dialog with the
    answers of the collaborators for it; [load_model] is what
    [whisper.load_model] does: it returns a model on the GPU or not, or
    raises. *)
Definition main (py : python) (selected_videos : list (string * answers))
    (load_model : result bool) : M unit :=
  (_ <- makedirs py OUTPUT_DIR ;;
   _ <- select_files py ;;
   match selected_videos with
   | [] => print MsgNoFilesSelected
   | _ =>
       _ <- print (MsgLoadingModel MODEL_SIZE) ;;
       _ <- emit (EvLoadModel MODEL_SIZE) ;;
       match load_model with
       | Raise e => print (MsgModelLoadFailed e)
       | Return cuda =>
           _ <- print (MsgModelLoaded cuda) ;;
           _ <- for_each_video py selected_videos ;;
           print MsgAllDone
       end
   end)%M.

(** ** The stages of the specification

    The specification describes the loop body as a state machine
    [SELECT_STREAM -> EXTRACT -> TRANSCRIBE -> CLEANUP -> DONE].  A stage
    is entered when the loop body calls the collaborator of that stage. *)

Inductive stage : Type :=
| SELECT_STREAM | EXTRACT | TRANSCRIBE | CLEANUP | DONE.

Definition stage_of_event (e : event) : option stage :=
  match e with
  | EvProbe _ => Some SELECT_STREAM
  | EvSpawn _ _ _ => Some EXTRACT
  | EvTranscribe _ _ => Some TRANSCRIBE
  | EvRemove _ => Some CLEANUP
  | EvNextFile => Some DONE
  | _ => None
  end.

Fixpoint stages (evs : list event) : list stage :=
  match evs with
  | [] => []
  | e :: rest =>
      match stage_of_event e with
      | Some s => s :: stages rest
      | None => stages rest
      end
  end.

Definition is_input (e : event) : bool :=
  match e with EvInput _ => true | _ => false end.

Definition is_spawn (e : event) : bool :=
  match e with EvSpawn _ _ _ => true | _ => false end.

Definition is_transcribe (e : event) : bool :=
  match e with EvTranscribe _ _ => true | _ => false end.

Definition is_open_write (e : event) : bool :=
  match e with EvOpenWrite _ => true | _ => false end.

Definition is_remove (e : event) : bool :=
  match e with EvRemove _ => true | _ => false end.

(** What a computation emitted, left behind and returned. *)
Definition events_of {A : Type} (out : list event * world * result A)
  : list event := fst (fst out).
Definition world_of {A : Type} (out : list event * world * result A)
  : world := snd (fst out).
Definition result_of {A : Type} (out : list event * world * result A)
  : result A := snd out.

(** An operator entry the selector accepts: a number between 1 and the
    number of audio streams. *)
Definition valid_entry (py : python) (count : nat) (line : string) : bool :=
  match py_int py line with
  | Some choice => (1 <=? choice) && (choice <=? Z.of_nat count)
  | None => false
  end.

(** What the selector prints for an entry it rejects. *)
Definition rejection (py : python) (count : nat) (line : string) : message :=
  match py_int py line with
  | Some _ => MsgInvalidChoice count
  | None => MsgInvalidInput
  end.

(** ** An instance of the runtime for the examples

    ASCII text, and Windows paths with a drive letter: on such inputs the
    functions below compute what CPython computes. *)

Module AsciiPython.

Definition is_space (c : ascii) : bool :=
  let n := nat_of_ascii c in
  (n =? 32)%nat || ((9 <=? n)%nat && (n <=? 13)%nat).

Fixpoint drop_while (p : ascii -> bool) (l : list ascii) : list ascii :=
  match l with
  | [] => []
  | c :: rest => if p c then drop_while p rest else l
  end.

Fixpoint take_while (p : ascii -> bool) (l : list ascii) : list ascii :=
  match l with
  | [] => []
  | c :: rest => if p c then c :: take_while p rest else []
  end.

Definition strip (s : string) : string :=
  let l := drop_while is_space (list_ascii_of_string s) in
  string_of_list_ascii (List.rev (drop_while is_space (List.rev l))).

Definition upper_char (c : ascii) : ascii :=
  let n := nat_of_ascii c in
  if (97 <=? n)%nat && (n <=? 122)%nat then ascii_of_nat (n - 32) else c.

Fixpoint upper (s : string) : string :=
  match s with
  | EmptyString => EmptyString
  | String c rest => String (upper_char c) (upper rest)
  end.

(** [int(s)] for decimal numerals with an optional sign. *)
Definition int (s : string) : option Z :=
  match strip s with
  | String "-" ds => option_map Z.opp (number_of_digits ds)
  | String "+" ds => number_of_digits ds
  | ds => number_of_digits ds
  end.

Definition is_sep (c : ascii) : bool :=
  Ascii.eqb c "\" || Ascii.eqb c "/".

Definition drop_drive (l : list ascii) : list ascii :=
  match l with
  | _ :: ":"%char :: rest => rest
  | _ => l
  end.

(** [ntpath.basename]: what follows the drive and the last separator. *)
Definition basename (p : string) : string :=
  let l := drop_drive (list_ascii_of_string p) in
  string_of_list_ascii
    (List.rev (take_while (fun c => negb (is_sep c)) (List.rev l))).

Definition is_dot (c : ascii) : bool := Ascii.eqb c ".".

(** [ntpath.splitext] on a name without separators: the extension
    starts at the last dot, unless only dots come before it. *)
Definition splitext (p : string) : string * string :=
  let r := List.rev (list_ascii_of_string p) in
  let ext := take_while (fun c => negb (is_dot c)) r in
  match drop_while (fun c => negb (is_dot c)) r with
  | [] => (p, EmptyString)
  | _dot :: stem =>
      if List.forallb is_dot stem then (p, EmptyString)
      else (string_of_list_ascii (List.rev stem),
            string_of_list_ascii ("."%char :: List.rev ext))
  end.

(** [ntpath.join] of a directory and a relative name. *)
Definition join (dir name : string) : string := dir +:+ "\" +:+ name.

Definition py : python :=
  {| py_int := int; py_strip := strip; py_upper := upper;
     path_basename := basename; path_splitext := splitext;
     path_join := join;
     os_makedirs := fun _ => Return tt; tk_dialog := Return tt |}.

End AsciiPython.

(** ** Predicates used in the statements *)

Fixpoint all_digits (s : string) : bool :=
  match s with
  | EmptyString => true
  | String c rest => is_digit c && all_digits rest
  end.

(** The audio streams the probe reported; none when the probe failed. *)
Definition audio_streams_of (ans : answers) : list stream :=
  match probe ans with
  | ProbeFails _ => []
  | ProbeStreams streams => List.filter is_audio streams
  | ProbeCrashes _ => []
  end.

(** ffmpeg started and exited with code 0. *)
Definition extraction_ok (ans : answers) : bool :=
  match ffmpeg ans with
  | Exits _ returncode _ => returncode =? 0
  | SpawnFails _ => false
  end.

(** What ffmpeg does to the files when it is asked to write to [path]. *)
Definition ffmpeg_effect (ans : answers) (path : string)
    (fs : gmap string string) : gmap string string :=
  match ffmpeg ans with
  | Exits _ _ (Some contents) => <[path := contents]> fs
  | _ => fs
  end.

(** Events of the console only. *)
Definition is_console (e : event) : bool :=
  match e with EvPrint _ | EvInput _ => true | _ => false end.

(** What the loop of [write_segments] appends to the subtitle file from
    cue number [i], and how the loop ends: a timestamp that cannot be
    formatted stops it after the cue number was written. *)
Fixpoint srt_text (py : python) (i : N) (segments : list segment)
  : string * result unit :=
  match segments with
  | [] => (EmptyString, Return tt)
  | seg :: rest =>
      let head := digits i +:+ newline in
      match format_srt_timestamp (seg_start seg) with
      | Raise e => (head, Raise e)
      | Return start_time =>
          match format_srt_timestamp (seg_end seg) with
          | Raise e => (head, Raise e)
          | Return end_time =>
              let '(more, r) := srt_text py (N.succ i) rest in
              (head
               +:+ (start_time +:+ " --> " +:+ end_time +:+ newline)
               +:+ (py_strip py (seg_text seg) +:+ newline +:+ newline)
               +:+ more, r)
          end
      end
  end.

(** The outcome of a choice loop seen as the outcome of the selector. *)
Definition chosen (r : result Z) : result (option Z) :=
  match r with
  | Return choice => Return (Some choice)
  | Raise e => Raise e
  end.

(** The prompts and rejections for a list of rejected entries. *)
Fixpoint rejections (py : python) (count : nat) (bad : list string)
  : list event :=
  match bad with
  | [] => []
  | line :: rest =>
      EvInput count :: EvPrint (rejection py count line)
        :: rejections py count rest
  end.

(** What the selector prints before it asks: the probe line, the
    invitation and the menu. *)
Definition menu_header (py : python) (ans : answers) (video_path : string)
  : list event :=
  [EvPrint (MsgProbing (path_basename py video_path)); EvProbe video_path;
   EvPrint MsgPleaseSelect] ++ menu_lines py 0 (audio_streams_of ans).

(** ** Scripts of the examples *)

Module Examples.

Definition jpn : stream :=
  Stream "audio" (Some "jpn"%string) None (Some "aac"%string) None.
Definition eng : stream :=
  Stream "audio" (Some "eng"%string) (Some "Dub"%string) None None.
Definition picture : stream := Stream "video" None None None None.

Definition hello : segment :=
  Segment (Float.of_Z 0) (Float.of_ratio 25 10) "  hello ".
Definition world_ : segment :=
  Segment (Float.of_ratio 25 10) (Float.of_Z 4) "world".
Definition bye : segment :=
  Segment (Float.of_Z 1) (Float.of_Z 2) "bye".

(** One audio stream, every stage succeeds. *)
Definition all_good : answers :=
  Answers (ProbeStreams [picture; jpn])
    (Exits ["size=1kB time=00:00:01.00 speed=30x"%string] 0
       (Some "RIFF"%string))
    (Segments [hello; world_]) None None.

(** One audio stream, every stage succeeds, another transcript. *)
Definition all_good_too : answers :=
  Answers (ProbeStreams [jpn])
    (Exits [] 0 (Some "RIFF2"%string)) (Segments [bye]) None None.

(** Two audio streams, every stage succeeds. *)
Definition two_streams : answers :=
  Answers (ProbeStreams [picture; jpn; eng])
    (Exits [] 0 (Some "RIFF"%string)) (Segments [hello]) None None.

(** ffmpeg exits with code 1 and leaves a partial file. *)
Definition ffmpeg_exits_1 : answers :=
  Answers (ProbeStreams [picture; jpn])
    (Exits ["Conversion failed!"%string] 1 (Some "RIFF-partial"%string))
    (Segments [hello]) None None.


(** The model raises during the transcription. *)
Definition whisper_raises : answers :=
  Answers (ProbeStreams [jpn])
    (Exits [] 0 (Some "RIFF"%string))
    (TranscribeFails (ExternalError "CUDA out of memory")) None None.


Definition empty_disk (lines : list string) : world := World ∅ lines.

(** The loop body on a video whose transcription fails. *)
Definition failed_transcription : list event * world * result unit :=
  loop_body AsciiPython.py ("C:\anime\ep3.mkv"%string, whisper_raises)
    (empty_disk []).

(** The loop body on a video whose extraction exits with code 1. *)
Definition failed_extraction : list event * world * result unit :=
  loop_body AsciiPython.py ("C:\anime\ep1.mkv"%string, ffmpeg_exits_1)
    (empty_disk []).

(** Two videos of the same base name: the extraction of the first fails,
    the second succeeds at every stage. *)
Definition same_name_run : list event * world * result unit :=
  main AsciiPython.py
    [("C:\anime\ep1.mkv"%string, ffmpeg_exits_1);
     ("D:\backup\ep1.mp4"%string, all_good)]
    (Return true) (empty_disk []).

End Examples.


(** ** Definitions for the further properties *)

(** One cue of the subtitle file, as lines 127-131 write it: the cue
    number, the two timestamps, the stripped text and an empty line. *)
Definition render_cue (py : python) (i : N) (seg : segment) : result string :=
  (start_time <- format_srt_timestamp (seg_start seg) ;;
   end_time <- format_srt_timestamp (seg_end seg) ;;
   Return (digits i +:+ newline
           +:+ start_time +:+ " --> " +:+ end_time +:+ newline
           +:+ py_strip py (seg_text seg) +:+ newline +:+ newline))%result.

(** The cues of a transcript, numbered from [i]; the first timestamp
    that cannot be formatted makes the whole rendering fail. *)
Fixpoint render_cues (py : python) (i : N) (segments : list segment)
  : result (list string) :=
  match segments with
  | [] => Return []
  | seg :: rest =>
      (cue <- render_cue py i seg ;;
       cues <- render_cues py (N.succ i) rest ;;
       Return (cue :: cues))%result
  end.

Fixpoint concat_strings (l : list string) : string :=
  match l with
  | [] => EmptyString
  | s :: rest => s +:+ concat_strings rest
  end.

(** [needle] occurs somewhere in [text]. *)
Definition occurs_in (needle text : string) : Prop :=
  exists pre post, text = pre +:+ needle +:+ post.

(** The stages of the loop body of a video, read off the answers of the
    collaborators. *)
Definition stages_of_answers (ans : answers) : list stage :=
  match audio_streams_of ans with
  | [] => [SELECT_STREAM; DONE]
  | _ :: _ =>
      if extraction_ok ans
      then [SELECT_STREAM; EXTRACT; TRANSCRIBE; CLEANUP; DONE]
      else [SELECT_STREAM; EXTRACT; DONE]
  end.

(** The menu line of the audio stream at position [k] (from 0). *)
Definition menu_line (py : python) (k : nat) (s : stream) : event :=
  EvPrint (MsgMenuLine (Z.of_nat k + 1)
             (py_upper py (default "unknown"%string (tag_language s)))
             (default "No Title"%string (tag_title s))
             (default "N/A"%string (codec_name s))
             (default "N/A"%string (channel_layout s))).

Definition is_progress (e : event) : bool :=
  match e with EvPrint (MsgProgress _) => true | _ => false end.

(** The success line of the transcriber. *)
Definition is_saved (e : event) : bool :=
  match e with EvPrint (MsgSubtitlesSaved _) => true | _ => false end.

(** ** More scripts for the examples *)

Module MoreExamples.

(** A segment whose start is negative. *)
Definition negative : segment :=
  Segment (Float.of_ratio (-1) 1000) (Float.of_Z 1) "oops".

(** One audio stream, and a transcript whose second segment cannot be
    formatted. *)
Definition bad_timestamp : answers :=
  Answers (ProbeStreams [Examples.jpn])
    (Exits [] 0 (Some "RIFF"%string))
    (Segments [Examples.hello; negative; Examples.bye]) None None.

(** The subtitle file cannot be opened. *)
Definition read_only_disk : answers :=
  Answers (ProbeStreams [Examples.jpn])
    (Exits [] 0 (Some "RIFF"%string))
    (Segments [Examples.hello]) (Some "Permission denied"%string) None.

(** The temporary file cannot be deleted. *)
Definition locked_temp : answers :=
  Answers (ProbeStreams [Examples.jpn])
    (Exits [] 0 (Some "RIFF"%string))
    (Segments [Examples.hello]) None (Some "Permission denied"%string).

(** ffprobe is not installed. *)
Definition ffprobe_missing : answers :=
  Answers (ProbeCrashes "No such file or directory: 'ffprobe'")
    (Exits [] 0 (Some "RIFF"%string)) (Segments [Examples.hello]) None None.

(** The loop body on a video whose second segment cannot be formatted. *)
Definition partial_subtitles : list event * world * result unit :=
  loop_body AsciiPython.py ("C:\anime\ep1.mkv"%string, bad_timestamp)
    (Examples.empty_disk []).

(** A disk that already holds an older subtitle file. *)
Definition old_subtitles : world :=
  World {[ "Z:\ASG\Temp\ep1.srt"%string := "old subtitles"%string ]} [].

End MoreExamples.

(** * Properties *)

#[local] Arguments String.append !_ _ / : simpl nomatch.

(** ** Decimal digits *)

Lemma all_digits_app (a b : string) :
  all_digits (a +:+ b) = all_digits a && all_digits b.
Proof.
  induction a as [|c a IH]; simpl; [reflexivity|].
  rewrite IH. apply andb_assoc.
Qed.

Lemma all_digits_zeros (k : nat) : all_digits (zeros k) = true.
Proof. induction k; simpl; auto. Qed.

Lemma all_digits_string_of_uint (d : uint) :
  all_digits (NilEmpty.string_of_uint d) = true.
Proof. induction d; simpl; auto. Qed.

Lemma to_uint_not_nil (n : N) : N.to_uint n <> Nil.
Proof.
  destruct n as [|p]; simpl; [discriminate|].
  apply DecimalPos.Unsigned.to_uint_nonnil.
Qed.

Lemma digits_nil_empty (n : N) :
  digits n = NilEmpty.string_of_uint (N.to_uint n).
Proof.
  unfold digits, NilZero.string_of_uint.
  pose proof (to_uint_not_nil n) as H.
  destruct (N.to_uint n); [congruence | reflexivity ..].
Qed.

Lemma all_digits_digits (n : N) : all_digits (digits n) = true.
Proof. rewrite digits_nil_empty. apply all_digits_string_of_uint. Qed.

Lemma digits_not_empty (n : N) : digits n <> EmptyString.
Proof.
  rewrite digits_nil_empty. pose proof (to_uint_not_nil n) as H.
  destruct (N.to_uint n); simpl; congruence.
Qed.

Lemma uint_of_string_zeros (k : nat) (s : string) :
  NilEmpty.uint_of_string (zeros k +:+ s)
  = option_map (Nat.iter k D0) (NilEmpty.uint_of_string s).
Proof.
  induction k as [|k IH]; simpl.
  - destruct (NilEmpty.uint_of_string s); reflexivity.
  - rewrite IH. destruct (NilEmpty.uint_of_string s); reflexivity.
Qed.

Lemma of_uint_zeros (k : nat) (d : uint) :
  N.of_uint (Nat.iter k D0 d) = N.of_uint d.
Proof. induction k as [|k IH]; simpl; [reflexivity | exact IH]. Qed.

Lemma zfill_not_empty (w : nat) (s : string) :
  s <> EmptyString -> zfill w s <> EmptyString.
Proof.
  unfold zfill. destruct (w - String.length s)%nat; simpl; [auto | discriminate].
Qed.

Lemma all_digits_zfill (w : nat) (n : N) :
  all_digits (zfill w (digits n)) = true.
Proof.
  unfold zfill. rewrite all_digits_app, all_digits_zeros, all_digits_digits.
  reflexivity.
Qed.

(** Reading back a padded number gives the number. *)
Lemma number_of_zfill (w : nat) (n : N) :
  number_of_digits (zfill w (digits n)) = Some (Z.of_N n).
Proof.
  unfold number_of_digits.
  pose proof (zfill_not_empty w (digits n) (digits_not_empty n)) as Hne.
  destruct (zfill w (digits n)) eqn:E; [congruence|].
  rewrite <- E. unfold zfill.
  rewrite uint_of_string_zeros, digits_nil_empty, NilEmpty.usu. simpl.
  rewrite of_uint_zeros, DecimalN.Unsigned.of_to. reflexivity.
Qed.

Lemma format_d_nonneg (w : nat) (n : Z) :
  0 <= n -> format_d w n = zfill w (digits (Z.to_N n)).
Proof.
  intros H. unfold format_d.
  destruct (n <? 0) eqn:E; [apply Z.ltb_lt in E; lia | reflexivity].
Qed.

(** ** Reading fields *)

Lemma span_digits_all (ds : string) :
  all_digits ds = true -> span_digits ds = (ds, EmptyString).
Proof.
  induction ds as [|c ds IH]; simpl; [reflexivity|].
  intros H. apply andb_true_iff in H as [Hc Hds].
  rewrite Hc, (IH Hds). reflexivity.
Qed.

Lemma span_digits_sep (ds : string) (c : ascii) (rest : string) :
  all_digits ds = true -> is_digit c = false ->
  span_digits (ds +:+ String c rest) = (ds, String c rest).
Proof.
  intros Hds Hc. induction ds as [|d ds IH]; simpl.
  - rewrite Hc. reflexivity.
  - simpl in Hds. apply andb_true_iff in Hds as [Hd Hds].
    rewrite Hd, (IH Hds). reflexivity.
Qed.

Lemma read_field_zfill (w : nat) (n : N) (sep : ascii) (rest : string) :
  is_digit sep = false ->
  read_field sep (zfill w (digits n) +:+ String sep rest)
  = Some (Z.of_N n, rest).
Proof.
  intros Hsep. unfold read_field.
  rewrite span_digits_sep by (auto using all_digits_zfill).
  rewrite number_of_zfill, Ascii.eqb_refl. reflexivity.
Qed.

Lemma string_app_assoc (a b c : string) : (a +:+ b) +:+ c = a +:+ (b +:+ c).
Proof. induction a as [|x a IH]; simpl; [reflexivity | now rewrite IH]. Qed.

Lemma append_char (c : ascii) (s : string) :
  String c EmptyString +:+ s = String c s.
Proof. reflexivity. Qed.

(** The string built from four non-negative fields parses back to them. *)
Lemma parse_fields (h m s r : N) :
  parse_srt_timestamp
    (zfill 2 (digits h) +:+ ":" +:+ zfill 2 (digits m) +:+ ":"
     +:+ zfill 2 (digits s) +:+ "," +:+ zfill 3 (digits r))
  = Some (Z.of_N h * 3600000 + Z.of_N m * 60000 + Z.of_N s * 1000 + Z.of_N r).
Proof.
  unfold parse_srt_timestamp.
  rewrite !append_char.
  do 3 (rewrite read_field_zfill by reflexivity; cbv beta iota).
  rewrite span_digits_all by apply all_digits_zfill.
  rewrite number_of_zfill. reflexivity.
Qed.

(** ** The pattern *)

Lemma string_app_nil_r (s : string) : s +:+ EmptyString = s.
Proof. induction s as [|c s IH]; simpl; [reflexivity | now rewrite IH]. Qed.

Lemma match_digits_app (s rest : string) :
  all_digits s = true ->
  match_digits (String.length s) (s +:+ rest) = Some rest.
Proof.
  induction s as [|c s IH]; simpl; [reflexivity|].
  intros H. apply andb_true_iff in H as [Hc Hs]. rewrite Hc. auto.
Qed.

Lemma match_items_digits (k : nat) (its : list regex_item) (s rest : string) :
  all_digits s = true -> String.length s = k ->
  match_items (Digits k :: its) (s +:+ rest) = match_items its rest.
Proof.
  intros Hs <-. simpl. rewrite match_digits_app by assumption. reflexivity.
Qed.

Lemma match_items_lit (c : ascii) (its : list regex_item) (rest : string) :
  match_items (Lit c :: its) (String c rest) = match_items its rest.
Proof. simpl. rewrite Ascii.eqb_refl. reflexivity. Qed.

(** A number below [10^width] fills exactly [width] characters. *)
Lemma zfill_2_length (n : N) :
  (n < 100)%N -> String.length (zfill 2 (digits n)) = 2%nat.
Proof.
  intros Hn.
  assert (List.forallb
            (fun k => Nat.eqb (String.length (zfill 2 (digits (N.of_nat k)))) 2)
            (List.seq 0 100) = true) as Hall by (vm_compute; reflexivity).
  rewrite List.forallb_forall in Hall.
  specialize (Hall (N.to_nat n)). rewrite N2Nat.id in Hall.
  apply Nat.eqb_eq, Hall, List.in_seq. lia.
Qed.

Lemma zfill_3_length (n : N) :
  (n < 1000)%N -> String.length (zfill 3 (digits n)) = 3%nat.
Proof.
  intros Hn.
  assert (List.forallb
            (fun k => Nat.eqb (String.length (zfill 3 (digits (N.of_nat k)))) 3)
            (List.seq 0 1000) = true) as Hall by (vm_compute; reflexivity).
  rewrite List.forallb_forall in Hall.
  specialize (Hall (N.to_nat n)). rewrite N2Nat.id in Hall.
  apply Nat.eqb_eq, Hall, List.in_seq. lia.
Qed.

Lemma fullmatch_fields (h m s r : N) :
  (h < 100)%N -> (m < 100)%N -> (s < 100)%N -> (r < 1000)%N ->
  fullmatch srt_pattern
    (zfill 2 (digits h) +:+ ":" +:+ zfill 2 (digits m) +:+ ":"
     +:+ zfill 2 (digits s) +:+ "," +:+ zfill 3 (digits r)) = true.
Proof.
  intros Hh Hm Hs Hr. unfold fullmatch, srt_pattern.
  rewrite !append_char.
  rewrite <- (string_app_nil_r (zfill 3 (digits r))).
  repeat first
    [ rewrite match_items_lit
    | rewrite match_items_digits
        by (auto using all_digits_zfill, zfill_2_length, zfill_3_length) ].
  reflexivity.
Qed.

(** ** Rounding a non-negative float *)

Lemma binary_round_aux_sign (s : bool) (mx ex : Z) (lx : location) :
  match binary_round_aux Float.prec Float.emax s mx ex lx with
  | S754_finite s' _ _ => s' = s
  | _ => True
  end.
Proof.
  unfold binary_round_aux.
  destruct (shr_fexp _ _ mx ex lx) as [mrs' e'].
  destruct (shr_fexp _ _ _ e' loc_Exact) as [mrs'' e''].
  destruct (shr_m mrs''); [exact I | | exact I].
  destruct (e'' <=? _); [reflexivity | exact I].
Qed.

Lemma round_half_even_shift_nonneg (m k : Z) :
  0 <= m -> 0 <= Float.round_half_even_shift m k.
Proof.
  intros Hm. unfold Float.round_half_even_shift.
  assert (0 <= m / 2 ^ k) as Hq.
  { destruct (Z.le_gt_cases 0 k) as [Hk|Hk].
    - apply Z.div_pos; [assumption | apply Z.pow_pos_nonneg; lia].
    - rewrite Z.pow_neg_r by assumption. rewrite Z.div_0_r. lia. }
  destruct (2 * (m mod 2 ^ k) ?= 2 ^ k); [destruct (Z.even _) | |]; lia.
Qed.

Lemma round_nonneg (seconds : Float.float) (ms : Z) :
  Float.ge seconds Float.zero = true ->
  Float.round (Float.mul seconds (Float.of_Z 1000)) = Return ms ->
  0 <= ms.
Proof.
  intros Hge Hround.
  destruct seconds as [s | s | | s m e]; simpl in Hge, Hround.
  - inversion Hround. lia.
  - discriminate.
  - discriminate.
  - destruct s; [discriminate|].
    change (Float.mul (S754_finite false m e) (Float.of_Z 1000))
      with (binary_round_aux Float.prec Float.emax false
              (Zpos (m * 8796093022208000)) (e + -43) loc_Exact) in Hround.
    pose proof (binary_round_aux_sign false
                  (Zpos (m * 8796093022208000)) (e + -43) loc_Exact) as Hs.
    destruct (binary_round_aux _ _ _ _ _ _) as [s' | s' | | s' m' e'];
      simpl in Hround; try discriminate.
    + inversion Hround. lia.
    + subst s'. inversion Hround as [Hms]. simpl.
      destruct (0 <=? e') eqn:He.
      * apply Z.leb_le in He. apply Z.mul_nonneg_nonneg; [lia|].
        apply Z.pow_nonneg. lia.
      * apply round_half_even_shift_nonneg. lia.
Qed.

(** ** The timestamp formatter *)

(** The float written [3661.2005]: the binary64 value nearest to the
    decimal, here with its mantissa and exponent. *)
Lemma literal_3661_2005 :
  Float.of_ratio 36612005 10000 = S754_finite false 8051065042738610 (-41)
  /\ Float.is_binary64 (Float.of_ratio 36612005 10000) = true
  /\ 2 * Z.abs (8051065042738610 * 10000 - 36612005 * 2 ^ 41) <= 10000.
Proof. vm_compute. repeat split; intros; discriminate. Qed.

(** Its product with [1000.0] is the float 3661200.5 exactly. *)
Lemma product_3661_2005 :
  Float.mul (Float.of_ratio 36612005 10000) (Float.of_Z 1000)
  = Float.of_ratio 7322401 2.
Proof. vm_compute. reflexivity. Qed.

(** C1, as amended: for every float [seconds >= 0] whose product with
    1000 is finite, so that [round(seconds * 1000.0)] is an integer [ms],
    the formatter returns a string; parsing that string back as
    [hours*3600000 + minutes*60000 + seconds*1000 + milliseconds] gives
    [ms]; and the string matches [\d{2}:\d{2}:\d{2},\d{3}] when [ms] is
    below 360000000, that is below one hundred hours. *)
Theorem format_srt_timestamp_roundtrip (seconds : Float.float) (ms : Z) :
  Float.ge seconds Float.zero = true ->
  Float.round (Float.mul seconds (Float.of_Z 1000)) = Return ms ->
  exists s : string,
    format_srt_timestamp seconds = Return s
    /\ parse_srt_timestamp s = Some ms
    /\ (ms < 360000000 -> fullmatch srt_pattern s = true).
Proof.
  intros Hge Hround.
  pose proof (round_nonneg seconds ms Hge Hround) as Hms.
  unfold format_srt_timestamp. rewrite Hge, Hround. cbn [negb bind].
  set (hours := ms / 3600000).
  set (r1 := ms mod 3600000).
  set (minutes := r1 / 60000).
  set (r2 := r1 mod 60000).
  set (secs := r2 / 1000).
  set (millis := r2 mod 1000).
  assert (0 <= r1 < 3600000) as Hr1 by (apply Z.mod_pos_bound; lia).
  assert (0 <= r2 < 60000) as Hr2 by (apply Z.mod_pos_bound; lia).
  assert (0 <= millis < 1000) as Hr3 by (apply Z.mod_pos_bound; lia).
  assert (ms = 3600000 * hours + r1) as E1 by (apply Z.div_mod; lia).
  assert (r1 = 60000 * minutes + r2) as E2 by (apply Z.div_mod; lia).
  assert (r2 = 1000 * secs + millis) as E3 by (apply Z.div_mod; lia).
  assert (0 <= hours) as Hh by (apply Z.div_pos; lia).
  assert (0 <= minutes < 60) as Hm by lia.
  assert (0 <= secs < 60) as Hs by lia.
  eexists. split; [reflexivity|].
  rewrite !format_d_nonneg by lia. split.
  - rewrite parse_fields. f_equal. rewrite !Z2N.id by lia. lia.
  - intros Hlt. apply fullmatch_fields; lia.
Qed.

Lemma format_srt_timestamp_roundtrip_witness :
  Float.ge (Float.of_ratio 25 10) Float.zero = true
  /\ Float.round (Float.mul (Float.of_ratio 25 10) (Float.of_Z 1000))
     = Return 2500
  /\ exists s : string,
       format_srt_timestamp (Float.of_ratio 25 10) = Return s
       /\ parse_srt_timestamp s = Some 2500
       /\ (2500 < 360000000 -> fullmatch srt_pattern s = true).
Proof.
  split; [reflexivity|]. split; [reflexivity|].
  apply (format_srt_timestamp_roundtrip (Float.of_ratio 25 10) 2500);
    reflexivity.
Defined.

(** C1 fails as stated at [seconds = 360000.0], one hundred hours: the
    hours field takes three digits and the string does not match the
    pattern, neither as a whole nor at its start. *)
Lemma format_srt_timestamp_100_hours :
  Float.is_binary64 (Float.of_Z 360000) = true
  /\ Float.ge (Float.of_Z 360000) Float.zero = true
  /\ format_srt_timestamp (Float.of_Z 360000) = Return "100:00:00,000"%string
  /\ fullmatch srt_pattern "100:00:00,000" = false
  /\ prefix_match srt_pattern "100:00:00,000" = false.
Proof. vm_compute. repeat split. Qed.

(** C2, as amended: on the input [3661.2005] the formatter returns
    ["01:01:01,200"]; the product 3661200.5 is a tie and [round] takes
    the even neighbour 3661200. *)
Theorem format_srt_timestamp_3661_2005 :
  Float.round (Float.mul (Float.of_ratio 36612005 10000) (Float.of_Z 1000))
  = Return 3661200
  /\ format_srt_timestamp (Float.of_ratio 36612005 10000)
     = Return "01:01:01,200"%string.
Proof. vm_compute. split; reflexivity. Qed.

(** C2 fails as stated: the result on [3661.2005] is not
    ["01:01:01,201"]. *)
Lemma format_srt_timestamp_3661_2005_not_201 :
  format_srt_timestamp (Float.of_ratio 36612005 10000)
  <> Return "01:01:01,201"%string.
Proof. vm_compute. intros H. discriminate H. Qed.

(** C3: for every float [seconds < 0] the formatter fails on its
    assertion and returns no string. *)
Theorem format_srt_timestamp_negative (seconds : Float.float) :
  Float.lt seconds Float.zero = true ->
  format_srt_timestamp seconds
  = Raise (AssertionError "non-negative timestamp expected").
Proof.
  intros Hlt. unfold format_srt_timestamp.
  destruct seconds as [s | s | | s m e]; simpl in Hlt; try discriminate;
    destruct s; try discriminate; reflexivity.
Qed.

Lemma format_srt_timestamp_negative_witness :
  Float.lt (Float.of_ratio (-1) 1000) Float.zero = true
  /\ format_srt_timestamp (Float.of_ratio (-1) 1000)
     = Raise (AssertionError "non-negative timestamp expected").
Proof.
  split; [reflexivity|].
  apply (format_srt_timestamp_negative (Float.of_ratio (-1) 1000)).
  reflexivity.
Defined.

(** ** Running computations *)

Lemma mbind_run {A B : Type} (m : M A) (k : A -> M B) (w : world) :
  mbind m k w
  = match result_of (m w) with
    | Return a =>
        (events_of (m w) ++ events_of (k a (world_of (m w))),
         world_of (k a (world_of (m w))),
         result_of (k a (world_of (m w))))
    | Raise e => (events_of (m w), world_of (m w), Raise e)
    end.
Proof.
  unfold mbind, events_of, world_of, result_of.
  destruct (m w) as [[ev1 w1] [a|e]]; simpl; [|reflexivity].
  destruct (k a w1) as [[ev2 w2] r2]. reflexivity.
Qed.

Lemma events_of_tuple {A : Type} (ev : list event) (w : world)
    (r : result A) : events_of (ev, w, r) = ev.
Proof. reflexivity. Qed.

Lemma world_of_tuple {A : Type} (ev : list event) (w : world)
    (r : result A) : world_of (ev, w, r) = w.
Proof. reflexivity. Qed.

Lemma result_of_tuple {A : Type} (ev : list event) (w : world)
    (r : result A) : result_of (ev, w, r) = r.
Proof. reflexivity. Qed.

Ltac project_out :=
  rewrite ?events_of_tuple, ?world_of_tuple, ?result_of_tuple.

(** ** The choice loop *)

Lemma choice_loop_rejected (py : python) (count : nat)
    (line : string) (lines : list string) :
  valid_entry py count line = false ->
  choice_loop py count (line :: lines)
  = (EvInput count :: EvPrint (rejection py count line)
       :: fst (fst (choice_loop py count lines)),
     snd (fst (choice_loop py count lines)),
     snd (choice_loop py count lines)).
Proof.
  unfold valid_entry, rejection. intros H. simpl.
  destruct (choice_loop py count lines) as [[evs rest'] r].
  destruct (py_int py line) as [choice|]; [|reflexivity].
  rewrite H. reflexivity.
Qed.

Lemma choice_loop_accepted (py : python) (count : nat)
    (line : string) (lines : list string) (choice : Z) :
  py_int py line = Some choice -> 1 <= choice <= Z.of_nat count ->
  choice_loop py count (line :: lines)
  = ([EvInput count], lines, Return (choice - 1)).
Proof.
  intros Hint [H1 H2]. simpl. rewrite Hint.
  apply Z.leb_le in H1, H2. rewrite H1, H2. reflexivity.
Qed.

Lemma valid_entry_inv (py : python) (count : nat) (line : string) :
  valid_entry py count line = true ->
  exists choice, py_int py line = Some choice /\ 1 <= choice <= Z.of_nat count.
Proof.
  unfold valid_entry. destruct (py_int py line) as [choice|]; [|discriminate].
  intros H. apply andb_true_iff in H as [H1 H2].
  apply Z.leb_le in H1, H2. eauto.
Qed.

(** After rejected entries, the first accepted one is returned. *)
Lemma choice_loop_accepts (py : python) (count : nat)
    (bad : list string) (line : string) (rest : list string) (choice : Z) :
  List.forallb (fun l => negb (valid_entry py count l)) bad = true ->
  py_int py line = Some choice -> 1 <= choice <= Z.of_nat count ->
  choice_loop py count (bad ++ line :: rest)
  = (rejections py count bad ++ [EvInput count], rest, Return (choice - 1)).
Proof.
  intros Hbad Hint Hrange. induction bad as [|b bad IH].
  - apply choice_loop_accepted; assumption.
  - simpl in Hbad. apply andb_true_iff in Hbad as [Hb Hbad].
    apply negb_true_iff in Hb.
    change ((b :: bad) ++ line :: rest) with (b :: (bad ++ line :: rest)).
    rewrite choice_loop_rejected by assumption.
    rewrite (IH Hbad). reflexivity.
Qed.

(** When every entry is rejected, the input ends and [input] raises. *)
Lemma choice_loop_eof (py : python) (count : nat) (lines : list string) :
  List.forallb (fun l => negb (valid_entry py count l)) lines = true ->
  choice_loop py count lines
  = (rejections py count lines ++ [EvInput count], [], Raise EOFError).
Proof.
  induction lines as [|b lines IH]; intros Hbad; [reflexivity|].
  simpl in Hbad. apply andb_true_iff in Hbad as [Hb Hbad].
  apply negb_true_iff in Hb.
  rewrite choice_loop_rejected by assumption.
  rewrite (IH Hbad). reflexivity.
Qed.

(** The loop returns only on an accepted entry. *)
Lemma choice_loop_returns (py : python) (count : nat) (lines : list string)
    (evs : list event) (rest : list string) (c : Z) :
  choice_loop py count lines = (evs, rest, Return c) ->
  exists bad line choice,
    lines = bad ++ line :: rest
    /\ List.forallb (fun l => negb (valid_entry py count l)) bad = true
    /\ py_int py line = Some choice
    /\ 1 <= choice <= Z.of_nat count
    /\ c = choice - 1.
Proof.
  revert evs rest c. induction lines as [|l lines IH]; intros evs rest c H.
  - discriminate.
  - destruct (valid_entry py count l) eqn:Hv.
    + destruct (valid_entry_inv _ _ _ Hv) as (choice & Hint & Hrange).
      rewrite (choice_loop_accepted _ _ _ _ _ Hint Hrange) in H.
      inversion H; subst. exists [], l, choice. auto.
    + rewrite (choice_loop_rejected _ _ _ _ Hv) in H.
      destruct (choice_loop py count lines) as [[evs' rest'] r'] eqn:E.
      simpl in H. inversion H; subst.
      destruct (IH _ _ _ eq_refl) as (bad & line & choice & -> & Hb & Hrest).
      exists (l :: bad), line, choice. split; [reflexivity|].
      split; [|exact Hrest]. simpl. rewrite Hv, Hb. reflexivity.
Qed.

Lemma choice_loop_raises (py : python) (count : nat) (lines : list string)
    (e : py_exception) :
  snd (choice_loop py count lines) = Raise e -> e = EOFError.
Proof.
  induction lines as [|l lines IH]; simpl.
  - intros H. inversion H. reflexivity.
  - destruct (choice_loop py count lines) as [[evs' rest'] r'].
    destruct (py_int py l) as [choice|]; [|exact IH].
    destruct ((1 <=? choice) && (choice <=? Z.of_nat count)); [|exact IH].
    discriminate.
Qed.

Lemma choice_loop_console (py : python) (count : nat) (lines : list string) :
  List.forallb is_console (fst (fst (choice_loop py count lines))) = true.
Proof.
  induction lines as [|l lines IH]; simpl; [reflexivity|].
  destruct (choice_loop py count lines) as [[evs' rest'] r'].
  destruct (py_int py l) as [choice|]; [|exact IH].
  destruct ((1 <=? choice) && (choice <=? Z.of_nat count)); [reflexivity|].
  exact IH.
Qed.

(** ** The audio stream selector *)

Lemma select_probe_fails (py : python) (ans : answers) (video_path : string)
    (w : world) (stderr : string) :
  probe ans = ProbeFails stderr ->
  select_audio_stream py ans video_path w
  = ([EvPrint (MsgProbing (path_basename py video_path)); EvProbe video_path;
      EvPrint (MsgProbeError stderr)], w, Return None).
Proof.
  intros H. unfold select_audio_stream, try_except, mbind, ffmpeg_probe, print,
    emit, ret. rewrite H. reflexivity.
Qed.

Lemma select_probe_crashes (py : python) (ans : answers)
    (video_path : string) (w : world) (msg : string) :
  probe ans = ProbeCrashes msg ->
  select_audio_stream py ans video_path w
  = ([EvPrint (MsgProbing (path_basename py video_path)); EvProbe video_path],
     w, Raise (ExternalError msg)).
Proof.
  intros H. unfold select_audio_stream, try_except, mbind, ffmpeg_probe, print,
    emit, ret. rewrite H. reflexivity.
Qed.

Lemma select_no_audio (py : python) (ans : answers) (video_path : string)
    (w : world) (streams : list stream) :
  probe ans = ProbeStreams streams -> List.filter is_audio streams = [] ->
  select_audio_stream py ans video_path w
  = ([EvPrint (MsgProbing (path_basename py video_path)); EvProbe video_path;
      EvPrint MsgNoAudioStreams], w, Return None).
Proof.
  intros H Hf. unfold select_audio_stream, try_except, mbind, ffmpeg_probe,
    print, emit, ret. rewrite H. cbv beta iota. rewrite Hf. reflexivity.
Qed.

Lemma select_single (py : python) (ans : answers) (video_path : string)
    (w : world) (streams : list stream) (s : stream) :
  probe ans = ProbeStreams streams -> List.filter is_audio streams = [s] ->
  select_audio_stream py ans video_path w
  = ([EvPrint (MsgProbing (path_basename py video_path)); EvProbe video_path;
      EvPrint MsgAutoSelect], w, Return (Some 0)).
Proof.
  intros H Hf. unfold select_audio_stream, try_except, mbind, ffmpeg_probe,
    print, emit, ret. rewrite H. cbv beta iota. rewrite Hf. reflexivity.
Qed.

Lemma select_multiple (py : python) (ans : answers) (video_path : string)
    (w : world) (streams : list stream) :
  probe ans = ProbeStreams streams ->
  (1 < List.length (List.filter is_audio streams))%nat ->
  select_audio_stream py ans video_path w
  = let audio_streams := List.filter is_audio streams in
    let loop := choice_loop py (List.length audio_streams) (stdin w) in
    ([EvPrint (MsgProbing (path_basename py video_path)); EvProbe video_path;
      EvPrint MsgPleaseSelect]
       ++ menu_lines py 0 audio_streams ++ fst (fst loop),
     World (files w) (snd (fst loop)), chosen (snd loop)).
Proof.
  intros H Hlen. unfold select_audio_stream, try_except, mbind, ffmpeg_probe,
    print, emit, ret, ask_choice. rewrite H. cbv beta iota zeta.
  destruct (List.filter is_audio streams) as [|s1 [|s2 more]] eqn:Hf;
    [simpl in Hlen; lia | simpl in Hlen; lia |].
  cbv beta iota. simpl stdin. simpl files.
  destruct (choice_loop py _ (stdin w)) as [[evs rest] r] eqn:E.
  destruct r as [c|e]; simpl.
  - rewrite app_nil_r. reflexivity.
  - pose proof (choice_loop_raises py (List.length (s1 :: s2 :: more))
                  (stdin w) e) as He.
    rewrite E in He. rewrite (He eq_refl). simpl. reflexivity.
Qed.

(** C7: when the probe reports exactly one audio stream, the selector
    returns index 0, calls [input] not once and leaves the pending
    console input untouched. *)
Theorem select_audio_stream_single (py : python) (ans : answers)
    (video_path : string) (w : world) :
  List.length (audio_streams_of ans) = 1%nat ->
  let run := select_audio_stream py ans video_path w in
  result_of run = Return (Some 0)
  /\ List.filter is_input (events_of run) = []
  /\ world_of run = w.
Proof.
  unfold audio_streams_of. intros Hlen.
  destruct (probe ans) as [stderr|streams|msg] eqn:Hprobe;
    [discriminate | | discriminate].
  destruct (List.filter is_audio streams) as [|s [|s' more]] eqn:Hf;
    try discriminate.
  simpl. rewrite (select_single py ans video_path w streams s Hprobe Hf).
  repeat split.
Qed.

Lemma select_audio_stream_single_witness :
  List.length (audio_streams_of Examples.all_good) = 1%nat
  /\ result_of (select_audio_stream AsciiPython.py Examples.all_good
                  "C:\anime\ep1.mkv" (Examples.empty_disk ["2"%string]))
     = Return (Some 0).
Proof.
  split; [reflexivity|].
  apply (select_audio_stream_single AsciiPython.py Examples.all_good
           "C:\anime\ep1.mkv" (Examples.empty_disk ["2"%string])).
  reflexivity.
Defined.

(** C8: with more than one audio stream, every rejected entry (not a
    number, or a number outside 1..count) is answered by a message and a
    new prompt; the first accepted entry [i] ends the selection with
    [i - 1]; the selector returns in no other way; and when the console
    input ends before an accepted entry, [input] raises [EOFError]. *)
Theorem select_audio_stream_choice (py : python) (ans : answers)
    (video_path : string) (w : world) :
  let count := List.length (audio_streams_of ans) in
  (1 < count)%nat ->
  let run := select_audio_stream py ans video_path w in
  let rejected := fun l => negb (valid_entry py count l) in
  (forall bad line rest,
      stdin w = bad ++ line :: rest ->
      List.forallb rejected bad = true ->
      valid_entry py count line = true ->
      exists i,
        py_int py line = Some i /\ 1 <= i <= Z.of_nat count
        /\ run = (menu_header py ans video_path
                    ++ rejections py count bad ++ [EvInput count],
                  World (files w) rest, Return (Some (i - 1))))
  /\ (forall r,
        result_of run = Return r ->
        exists bad line rest i,
          stdin w = bad ++ line :: rest
          /\ List.forallb rejected bad = true
          /\ py_int py line = Some i /\ 1 <= i <= Z.of_nat count
          /\ r = Some (i - 1))
  /\ (List.forallb rejected (stdin w) = true ->
      run = (menu_header py ans video_path
               ++ rejections py count (stdin w) ++ [EvInput count],
             World (files w) [], Raise EOFError)).
Proof.
  unfold menu_header, audio_streams_of. cbv zeta. intros Hlen.
  destruct (probe ans) as [stderr|streams|msg] eqn:Hprobe;
    [simpl in Hlen; lia | | simpl in Hlen; lia].
  rewrite (select_multiple py ans video_path w streams Hprobe Hlen).
  cbv zeta. set (count := List.length (List.filter is_audio streams)).
  repeat split.
  - intros bad line rest Hin Hbad Hok.
    destruct (valid_entry_inv _ _ _ Hok) as (i & Hint & Hrange).
    exists i. repeat split; try tauto.
    rewrite Hin, (choice_loop_accepts py count bad line rest i Hbad Hint Hrange).
    simpl. rewrite <- ?app_assoc. reflexivity.
  - intros r Hr. unfold result_of in Hr. simpl in Hr.
    destruct (choice_loop py count (stdin w)) as [[evs rest] [c|e]] eqn:E;
      simpl in Hr; [|discriminate].
    destruct (choice_loop_returns _ _ _ _ _ _ E)
      as (bad & line & i & Hin & Hbad & Hint & Hrange & ->).
    inversion Hr. exists bad, line, rest, i. auto.
  - intros Hbad. rewrite (choice_loop_eof py count (stdin w) Hbad).
    simpl. rewrite <- ?app_assoc. reflexivity.
Qed.

Lemma select_audio_stream_choice_witness :
  (1 < List.length (audio_streams_of Examples.two_streams))%nat
  /\ select_audio_stream AsciiPython.py Examples.two_streams
       "C:\anime\ep2.mkv"
       (Examples.empty_disk ["x"; "7"; " 2 "; "1"]%string)
     = (menu_header AsciiPython.py Examples.two_streams "C:\anime\ep2.mkv"
          ++ rejections AsciiPython.py 2 ["x"; "7"]%string ++ [EvInput 2],
        Examples.empty_disk ["1"%string], Return (Some 1)).
Proof.
  split; [simpl; lia|].
  destruct (select_audio_stream_choice AsciiPython.py Examples.two_streams
              "C:\anime\ep2.mkv"
              (Examples.empty_disk ["x"; "7"; " 2 "; "1"]%string))
    as [Haccept _]; [simpl; lia|].
  destruct (Haccept ["x"; "7"]%string " 2 "%string ["1"%string]
              eq_refl eq_refl eq_refl) as (i & Hint & _ & Hrun).
  vm_compute in Hint. inversion Hint; subst i. exact Hrun.
Defined.

(** ** Events of the console *)

Lemma stages_app (a b : list event) : stages (a ++ b) = stages a ++ stages b.
Proof.
  induction a as [|e a IH]; simpl; [reflexivity|].
  destruct (stage_of_event e); simpl; now rewrite IH.
Qed.

Lemma console_stages (evs : list event) :
  List.forallb is_console evs = true -> stages evs = [].
Proof.
  induction evs as [|e evs IH]; simpl; [reflexivity|].
  intros H. apply andb_true_iff in H as [He Hevs].
  destruct e; try discriminate; simpl; auto.
Qed.

Lemma console_filter (p : event -> bool) (evs : list event) :
  (forall e, is_console e = true -> p e = false) ->
  List.forallb is_console evs = true -> List.filter p evs = [].
Proof.
  intros Hp. induction evs as [|e evs IH]; simpl; [reflexivity|].
  intros H. apply andb_true_iff in H as [He Hevs].
  rewrite (Hp e He). auto.
Qed.

Lemma console_not_spawn (e : event) : is_console e = true -> is_spawn e = false.
Proof. destruct e; simpl; congruence. Qed.

Lemma console_not_transcribe (e : event) :
  is_console e = true -> is_transcribe e = false.
Proof. destruct e; simpl; congruence. Qed.

Lemma console_not_open_write (e : event) :
  is_console e = true -> is_open_write e = false.
Proof. destruct e; simpl; congruence. Qed.

Lemma console_not_remove (e : event) :
  is_console e = true -> is_remove e = false.
Proof. destruct e; simpl; congruence. Qed.

Lemma menu_lines_console (py : python) (i : Z) (audio_streams : list stream) :
  List.forallb is_console (menu_lines py i audio_streams) = true.
Proof.
  revert i. induction audio_streams as [|s l IH]; intros i; simpl; auto.
Qed.

Lemma progress_lines_console (py : python) (stderr_lines : list string) :
  List.forallb is_console (progress_lines py stderr_lines) = true.
Proof.
  induction stderr_lines as [|l ls IH]; simpl; [reflexivity|].
  destruct (_ && _); simpl; auto.
Qed.

(** ** The audio extractor *)

Lemma extract_audio_run (py : python) (ans : answers)
    (video_path audio_output_path : string) (stream_index : Z) (w : world) :
  extract_audio py ans video_path audio_output_path stream_index w
  = match ffmpeg ans with
    | SpawnFails e =>
        ([EvPrint (MsgExtracting stream_index);
          EvSpawn video_path audio_output_path stream_index;
          EvPrint (MsgExtractionError e)], w, Return false)
    | Exits stderr_lines returncode written =>
        (EvPrint (MsgExtracting stream_index)
           :: EvSpawn video_path audio_output_path stream_index
           :: progress_lines py stderr_lines
           ++ [EvPrint MsgNewline;
               EvPrint (if returncode =? 0
                        then MsgAudioSaved audio_output_path
                        else MsgFfmpegFailed returncode)],
         World (ffmpeg_effect ans audio_output_path (files w)) (stdin w),
         Return (returncode =? 0))
    end.
Proof.
  unfold extract_audio, try_except, mbind, ffmpeg_run_async, print, emit, ret,
    ffmpeg_effect, is_exception.
  destruct (ffmpeg ans) as [e | stderr_lines returncode written];
    [reflexivity|].
  cbv beta iota zeta. destruct (returncode =? 0); cbv beta iota;
    rewrite ?app_nil_r; destruct written; reflexivity.
Qed.

(** C6: the extractor never raises; it returns [True] exactly when
    ffmpeg was started and exited with code 0; on another exit code it
    prints that code and returns [False]; a failure to start ffmpeg is
    caught, printed and turned into [False]; and in every case ffmpeg is
    started once, so nothing is retried. *)
Theorem extract_audio_success_iff_exit_0 (py : python) (ans : answers)
    (video_path audio_output_path : string) (stream_index : Z) (w : world) :
  let run :=
    extract_audio py ans video_path audio_output_path stream_index w in
  (exists success : bool, result_of run = Return success)
  /\ (result_of run = Return true
      <-> exists stderr_lines written,
            ffmpeg ans = Exits stderr_lines 0 written)
  /\ (forall stderr_lines returncode written,
        ffmpeg ans = Exits stderr_lines returncode written ->
        returncode <> 0 ->
        result_of run = Return false
        /\ List.In (EvPrint (MsgFfmpegFailed returncode)) (events_of run))
  /\ (forall e,
        ffmpeg ans = SpawnFails e ->
        result_of run = Return false
        /\ List.In (EvPrint (MsgExtractionError e)) (events_of run)
        /\ world_of run = w)
  /\ List.filter is_spawn (events_of run)
     = [EvSpawn video_path audio_output_path stream_index].
Proof.
  cbv zeta. rewrite extract_audio_run.
  destruct (ffmpeg ans) as [e | stderr_lines returncode written] eqn:Hff;
    unfold result_of, events_of, world_of; simpl;
    (split; [|split; [|split; [|split]]]).
  - eexists. reflexivity.
  - split; [discriminate|]. intros (l & wr & H). discriminate.
  - intros l c wr H. discriminate.
  - intros e' H. inversion H; subst.
    split; [reflexivity | split; [|reflexivity]]. right. right. now left.
  - reflexivity.
  - eexists. reflexivity.
  - split.
    + intros H. inversion H as [Hc]. apply Z.eqb_eq in Hc. subst. eauto.
    + intros (l & wr & H). inversion H; subst. reflexivity.
  - intros l c wr H Hc. inversion H; subst. apply Z.eqb_neq in Hc.
    rewrite Hc. split; [reflexivity|].
    right. right. apply List.in_or_app. right. simpl. auto.
  - intros e H. discriminate.
  - rewrite List.filter_app.
    rewrite (console_filter is_spawn _ console_not_spawn
               (progress_lines_console py stderr_lines)).
    reflexivity.
Qed.

Lemma extract_audio_success_iff_exit_0_witness :
  result_of (extract_audio AsciiPython.py Examples.ffmpeg_exits_1
               "C:\anime\ep1.mkv" "Z:\ASG\Temp\ep1.wav" 0
               (Examples.empty_disk []))
  = Return false
  /\ List.In (EvPrint (MsgFfmpegFailed 1))
       (events_of (extract_audio AsciiPython.py Examples.ffmpeg_exits_1
                     "C:\anime\ep1.mkv" "Z:\ASG\Temp\ep1.wav" 0
                     (Examples.empty_disk []))).
Proof.
  destruct (extract_audio_success_iff_exit_0 AsciiPython.py
              Examples.ffmpeg_exits_1 "C:\anime\ep1.mkv"
              "Z:\ASG\Temp\ep1.wav" 0 (Examples.empty_disk []))
    as (_ & _ & Hfail & _).
  apply (Hfail ["Conversion failed!"%string] 1 (Some "RIFF-partial"%string)).
  - reflexivity.
  - discriminate.
Defined.

(** ** The transcriber *)

(** The loop appends [srt_text] to the open file and ends as it says. *)
Lemma write_segments_run (py : python) (path : string)
    (segments : list segment) :
  forall (i : N) (w : world) (old : string),
    files w !! path = Some old ->
    write_segments py path i segments w
    = ([], World (<[path := old +:+ fst (srt_text py i segments)]> (files w))
             (stdin w),
       snd (srt_text py i segments)).
Proof.
  induction segments as [|seg rest IH]; intros i w old Hold.
  - simpl. rewrite string_app_nil_r, (insert_id _ _ _ Hold).
    destruct w. reflexivity.
  - cbn [write_segments srt_text].
    unfold mbind at 1. unfold f_write at 1. rewrite Hold. cbn [default from_option id].
    unfold mbind at 1. unfold lift at 1.
    destruct (format_srt_timestamp (seg_start seg)) as [start_time|e];
      [|reflexivity].
    unfold mbind at 1. unfold lift at 1.
    destruct (format_srt_timestamp (seg_end seg)) as [end_time|e];
      [|reflexivity].
    unfold mbind at 1. unfold f_write at 1. cbn [files stdin].
    rewrite lookup_insert_eq. cbn [default from_option id].
    unfold mbind at 1. unfold f_write at 1. cbn [files stdin].
    rewrite lookup_insert_eq. cbn [default from_option id].
    rewrite !insert_insert_eq.
    erewrite IH by (cbn [files]; apply lookup_insert_eq).
    cbn [files stdin]. rewrite insert_insert_eq.
    destruct (srt_text py (N.succ i) rest) as [more r]. cbn [fst snd app].
    rewrite !string_app_assoc. reflexivity.
Qed.

Lemma transcribe_and_save_srt_run (py : python) (ans : answers)
    (audio_path output_srt_path language : string) (w : world) :
  transcribe_and_save_srt py ans audio_path output_srt_path language w
  = match whisper ans with
    | TranscribeFails e =>
        ([EvPrint MsgTranscribing; EvTranscribe audio_path language;
          EvPrint (MsgTranscriptionError e)], w, Return tt)
    | Segments segments =>
        match open_srt ans with
        | Some msg =>
            ([EvPrint MsgTranscribing; EvTranscribe audio_path language;
              EvOpenWrite output_srt_path;
              EvPrint (MsgTranscriptionError (OSError msg))], w, Return tt)
        | None =>
            ([EvPrint MsgTranscribing; EvTranscribe audio_path language;
              EvOpenWrite output_srt_path;
              EvPrint (match snd (srt_text py 1 segments) with
                       | Return _ => MsgSubtitlesSaved output_srt_path
                       | Raise e => MsgTranscriptionError e
                       end)],
             World (<[output_srt_path := fst (srt_text py 1 segments)]>
                      (files w)) (stdin w),
             Return tt)
        end
    end.
Proof.
  unfold transcribe_and_save_srt, try_except, is_exception.
  unfold mbind at 1. unfold print at 1, emit at 1.
  unfold mbind at 1. unfold model_transcribe.
  destruct (whisper ans) as [e | segments]; [reflexivity|].
  unfold mbind at 1. unfold open_write.
  destruct (open_srt ans) as [msg|]; [reflexivity|].
  unfold mbind at 1.
  rewrite (write_segments_run py output_srt_path segments 1 _ EmptyString)
    by (cbn [files]; apply lookup_insert_eq).
  cbn [files stdin]. rewrite insert_insert_eq.
  destruct (srt_text py 1 segments) as [text [[]|e]]; reflexivity.
Qed.

(** ** The deletion of the temporary file *)

Lemma remove_temp_audio_run (ans : answers) (path : string) (w : world) :
  remove_temp_audio ans path w
  = match files w !! path, remove_denied ans with
    | None, _ =>
        ([EvRemove path;
          EvPrint (MsgCouldNotDelete path
                     (OSError "No such file or directory"))], w, Return tt)
    | Some _, Some msg =>
        ([EvRemove path; EvPrint (MsgCouldNotDelete path (OSError msg))],
         w, Return tt)
    | Some _, None =>
        ([EvRemove path; EvPrint (MsgDeleted path)],
         World (delete path (files w)) (stdin w), Return tt)
    end.
Proof.
  unfold remove_temp_audio, try_except, mbind, os_remove, print, emit.
  destruct (files w !! path); [destruct (remove_denied ans)|]; reflexivity.
Qed.

(** ** The loop body *)

(** The selector prints, probes, and then only talks to the console; it
    never touches the files; it can only raise [EOFError]; and it returns
    no index exactly when there is no audio stream to choose. *)
Lemma select_summary (py : python) (ans : answers) (video_path : string)
    (w : world) :
  let sel := select_audio_stream py ans video_path w in
  (exists tail,
      events_of sel
      = EvPrint (MsgProbing (path_basename py video_path))
          :: EvProbe video_path :: tail
      /\ List.forallb is_console tail = true)
  /\ files (world_of sel) = files w
  /\ (forall e,
        result_of sel = Raise e ->
        e = EOFError
        \/ exists msg, probe ans = ProbeCrashes msg /\ e = ExternalError msg)
  /\ (result_of sel = Return None -> audio_streams_of ans = [])
  /\ (forall i, result_of sel = Return (Some i) -> audio_streams_of ans <> []).
Proof.
  cbv zeta. unfold audio_streams_of.
  destruct (probe ans) as [stderr|streams|msg] eqn:Hprobe.
  { rewrite (select_probe_fails py ans video_path w stderr Hprobe).
    unfold events_of, world_of, result_of. simpl.
    repeat split; try discriminate. eexists. split; reflexivity. }
  2: { rewrite (select_probe_crashes py ans video_path w msg Hprobe).
       unfold events_of, world_of, result_of. simpl.
       split; [eexists; split; reflexivity|]. split; [reflexivity|].
       split; [|split; [reflexivity | discriminate]].
       intros e He. inversion He. right. eauto. }
  destruct (List.filter is_audio streams) as [|s1 [|s2 more]] eqn:Hf.
  - rewrite (select_no_audio py ans video_path w streams Hprobe Hf).
    unfold events_of, world_of, result_of. simpl.
    repeat split; try discriminate. eexists. split; reflexivity.
  - rewrite (select_single py ans video_path w streams s1 Hprobe Hf).
    unfold events_of, world_of, result_of. simpl.
    repeat split; try discriminate. eexists. split; reflexivity.
  - assert (1 < List.length (List.filter is_audio streams))%nat as Hlen
        by (rewrite Hf; simpl; lia).
    rewrite (select_multiple py ans video_path w streams Hprobe Hlen).
    rewrite Hf. cbv zeta. unfold events_of, world_of, result_of. simpl.
    set (count := S (S (List.length more))).
    split; [|split; [reflexivity | split; [|split; [|discriminate]]]].
    + eexists. split; [reflexivity|].
      cbn [List.forallb is_console andb].
      rewrite List.forallb_app, menu_lines_console.
      apply (choice_loop_console py count (stdin w)).
    + intros e He. left. apply (choice_loop_raises py count (stdin w)).
      destruct (snd (choice_loop py count (stdin w))); simpl in He;
        [discriminate | congruence].
    + destruct (snd (choice_loop py count (stdin w))); discriminate.
Qed.

Lemma extract_audio_result (py : python) (ans : answers)
    (video_path audio_output_path : string) (stream_index : Z) (w : world) :
  result_of (extract_audio py ans video_path audio_output_path stream_index w)
  = Return (extraction_ok ans).
Proof.
  rewrite extract_audio_run. unfold extraction_ok.
  destruct (ffmpeg ans); reflexivity.
Qed.

Lemma transcribe_result (py : python) (ans : answers)
    (audio_path output_srt_path language : string) (w : world) :
  result_of (transcribe_and_save_srt py ans audio_path output_srt_path
               language w) = Return tt.
Proof.
  rewrite transcribe_and_save_srt_run.
  destruct (whisper ans); [|destruct (open_srt ans)]; reflexivity.
Qed.

Lemma remove_result (ans : answers) (path : string) (w : world) :
  result_of (remove_temp_audio ans path w) = Return tt.
Proof.
  rewrite remove_temp_audio_run.
  destruct (files w !! path); [destruct (remove_denied ans)|]; reflexivity.
Qed.

(** The loop body, stage by stage. *)
Lemma loop_body_run (py : python) (video_path : string) (ans : answers)
    (w : world) :
  loop_body py (video_path, ans) w
  = let sel := select_audio_stream py ans video_path w in
    match result_of sel with
    | Raise e => (events_of sel, world_of sel, Raise e)
    | Return None =>
        (events_of sel ++ [EvPrint (MsgSkipping video_path); EvNextFile],
         world_of sel, Return tt)
    | Return (Some stream_index) =>
        let ext := extract_audio py ans video_path
                     (temp_audio_path py video_path) stream_index
                     (world_of sel) in
        if extraction_ok ans
        then
          let tr := transcribe_and_save_srt py ans
                      (temp_audio_path py video_path)
                      (output_srt_path py video_path) LANGUAGE
                      (world_of ext) in
          let rm := remove_temp_audio ans (temp_audio_path py video_path)
                      (world_of tr) in
          (events_of sel ++ events_of ext ++ events_of tr ++ events_of rm
             ++ [EvPrint MsgSeparator; EvNextFile],
           world_of rm, Return tt)
        else
          (events_of sel ++ events_of ext
             ++ [EvPrint MsgSeparator; EvNextFile],
           world_of ext, Return tt)
    end.
Proof.
  unfold loop_body. rewrite mbind_run. cbv zeta.
  destruct (result_of (select_audio_stream py ans video_path w))
    as [[stream_index|]|e]; [| reflexivity | reflexivity].
  rewrite mbind_run, extract_audio_result.
  destruct (extraction_ok ans).
  - rewrite mbind_run, mbind_run, transcribe_result, remove_result.
    unfold print, emit, mbind, events_of, world_of, result_of. simpl.
    rewrite <- !app_assoc. reflexivity.
  - unfold print, emit, mbind, ret, events_of, world_of, result_of. simpl.
    reflexivity.
Qed.

Lemma select_stages (py : python) (ans : answers) (video_path : string)
    (w : world) (p : event -> bool) :
  let sel := select_audio_stream py ans video_path w in
  stages (events_of sel) = [SELECT_STREAM]
  /\ ((forall e, is_console e = true -> p e = false) ->
      p (EvProbe video_path) = false ->
      List.filter p (events_of sel) = []).
Proof.
  cbv zeta.
  destruct (select_summary py ans video_path w) as ((tail & -> & Hc) & _).
  split.
  - simpl. rewrite (console_stages tail Hc). reflexivity.
  - intros Hp Hprobe. simpl. rewrite Hprobe, (Hp (EvPrint _) eq_refl).
    apply console_filter; assumption.
Qed.

Lemma extract_stages (py : python) (ans : answers)
    (video_path audio_output_path : string) (stream_index : Z) (w : world)
    (p : event -> bool) :
  let ext :=
    extract_audio py ans video_path audio_output_path stream_index w in
  stages (events_of ext) = [EXTRACT]
  /\ ((forall e, is_console e = true -> p e = false) ->
      p (EvSpawn video_path audio_output_path stream_index) = false ->
      List.filter p (events_of ext) = [])
  /\ world_of ext
     = match ffmpeg ans with
       | SpawnFails _ => w
       | Exits _ _ _ =>
           World (ffmpeg_effect ans audio_output_path (files w)) (stdin w)
       end.
Proof.
  cbv zeta. rewrite extract_audio_run.
  destruct (ffmpeg ans) as [e | stderr_lines returncode written];
    unfold events_of, world_of; simpl.
  - repeat split. intros Hp Hs. rewrite Hs, !(Hp (EvPrint _) eq_refl).
    reflexivity.
  - repeat split.
    + rewrite stages_app,
        (console_stages _ (progress_lines_console py stderr_lines)).
      reflexivity.
    + intros Hp Hs. rewrite Hs, (Hp (EvPrint _) eq_refl), List.filter_app.
      rewrite (console_filter p _ Hp (progress_lines_console py stderr_lines)).
      simpl. rewrite !(Hp (EvPrint _) eq_refl). reflexivity.
Qed.

Lemma transcribe_stages (py : python) (ans : answers)
    (audio_path output_srt_path language : string) (w : world) :
  let tr :=
    transcribe_and_save_srt py ans audio_path output_srt_path language w in
  stages (events_of tr) = [TRANSCRIBE]
  /\ List.filter is_transcribe (events_of tr)
     = [EvTranscribe audio_path language]
  /\ List.filter is_remove (events_of tr) = []
  /\ (List.filter is_open_write (events_of tr) <> [] ->
      exists segments, whisper ans = Segments segments)
  /\ (List.In (EvPrint (MsgSubtitlesSaved output_srt_path)) (events_of tr) ->
      exists segments,
        whisper ans = Segments segments /\ open_srt ans = None
        /\ snd (srt_text py 1 segments) = Return tt
        /\ files (world_of tr) !! output_srt_path
           = Some (fst (srt_text py 1 segments))).
Proof.
  cbv zeta. rewrite transcribe_and_save_srt_run.
  destruct (whisper ans) as [e | segments];
    [| destruct (open_srt ans) as [msg|]];
    unfold events_of, world_of; cbn [fst snd];
    (split; [reflexivity|]); (split; [reflexivity|]);
    (split; [reflexivity|]); split.
  - intros H. exfalso. apply H. reflexivity.
  - intros Hin. simpl in Hin. intuition discriminate.
  - intros _. eexists. reflexivity.
  - intros Hin. simpl in Hin. intuition discriminate.
  - intros _. eexists. reflexivity.
  - intros Hin. exists segments.
    split; [reflexivity|]. split; [reflexivity|]. split.
    + destruct (snd (srt_text py 1 segments)) as [[]|e]; [reflexivity|].
      simpl in Hin. intuition discriminate.
    + apply lookup_insert_eq.
Qed.

Lemma remove_stages (ans : answers) (path : string) (w : world) :
  let rm := remove_temp_audio ans path w in
  stages (events_of rm) = [CLEANUP]
  /\ List.filter is_transcribe (events_of rm) = []
  /\ List.filter is_open_write (events_of rm) = []
  /\ List.filter is_remove (events_of rm) = [EvRemove path].
Proof.
  cbv zeta. rewrite remove_temp_audio_run.
  destruct (files w !! path); [destruct (remove_denied ans)|];
    repeat split.
Qed.




(** The subtitle file is opened only after the extraction and the call
    of the model, and never after a failed extraction. *)
Lemma open_needs_extraction_and_model (py : python)
    (video_path : string) (ans : answers) (w : world) :
  let run := loop_body py (video_path, ans) w in
  (List.filter is_open_write (events_of run) <> [] ->
   (exists stderr_lines written, ffmpeg ans = Exits stderr_lines 0 written)
   /\ exists segments, whisper ans = Segments segments)
  /\ (forall stderr_lines returncode written,
        ffmpeg ans = Exits stderr_lines returncode written ->
        returncode <> 0 ->
        List.filter is_transcribe (events_of run) = []
        /\ List.filter is_open_write (events_of run) = []
        /\ (files (world_of run) = files w
            \/ files (world_of run)
               = ffmpeg_effect ans (temp_audio_path py video_path) (files w))).
Proof.
  cbv zeta. rewrite loop_body_run. cbv zeta.
  destruct (select_summary py ans video_path w) as (_ & Hfiles & _ & _).
  destruct (select_stages py ans video_path w is_open_write)
    as [_ Hsel_open].
  destruct (select_stages py ans video_path w is_transcribe)
    as [_ Hsel_tr].
  specialize (Hsel_open console_not_open_write eq_refl).
  specialize (Hsel_tr console_not_transcribe eq_refl).
  set (sel := select_audio_stream py ans video_path w) in *.
  destruct (result_of sel) as [[stream_index|]|e].
  - destruct (extract_stages py ans video_path
                (temp_audio_path py video_path) stream_index (world_of sel)
                is_open_write) as (_ & Hext_open & Hext_world).
    destruct (extract_stages py ans video_path
                (temp_audio_path py video_path) stream_index (world_of sel)
                is_transcribe) as (_ & Hext_tr & _).
    specialize (Hext_open console_not_open_write eq_refl).
    specialize (Hext_tr console_not_transcribe eq_refl).
    set (ext := extract_audio py ans video_path
                  (temp_audio_path py video_path) stream_index (world_of sel))
      in *.
    unfold extraction_ok.
    destruct (ffmpeg ans) as [e | stderr_lines returncode written] eqn:Hff.
    + project_out. rewrite !List.filter_app, Hsel_open, Hext_open.
      split; [intros H; exfalso; apply H; reflexivity|].
      intros l c wr H. discriminate.
    + destruct (returncode =? 0) eqn:Hcode; project_out.
      * apply Z.eqb_eq in Hcode. subst returncode. split.
        -- rewrite !List.filter_app, Hsel_open, Hext_open.
           match goal with
           | |- context [events_of (transcribe_and_save_srt ?p ?a ?x ?y ?l ?w0)] =>
               destruct (transcribe_stages p a x y l w0)
                 as (_ & _ & _ & Hopen & _)
           end.
           match goal with
           | |- context [events_of (remove_temp_audio ?a ?x ?w0)] =>
               destruct (remove_stages a x w0) as (_ & _ & Hrm & _)
           end.
           rewrite Hrm, app_nil_r. cbn [app]. intros Hne.
           split; [eauto | auto].
        -- intros l c wr H Hc. inversion H; subst. congruence.
      * split.
        -- rewrite !List.filter_app, Hsel_open, Hext_open.
           intros H; exfalso; apply H; reflexivity.
        -- intros l c wr H Hc.
           rewrite !List.filter_app, Hsel_open, Hext_open, Hsel_tr, Hext_tr.
           split; [reflexivity | split; [reflexivity|]].
           right. rewrite Hext_world. cbn [files]. rewrite Hfiles.
           reflexivity.
  - project_out. rewrite !List.filter_app, Hsel_open, Hsel_tr.
    split; [intros H; exfalso; apply H; reflexivity|].
    intros l c wr H Hc. auto.
  - project_out. rewrite Hsel_open, Hsel_tr.
    split; [intros H; exfalso; apply H; reflexivity|].
    intros l c wr H Hc. auto.
Qed.

(** *** The success line of the transcriber *)

Lemma menu_lines_never_saved (py : python) (i : Z)
    (audio_streams : list stream) :
  List.filter is_saved (menu_lines py i audio_streams) = [].
Proof.
  revert i. induction audio_streams as [|s l IH]; intros i; simpl; auto.
Qed.

Lemma choice_loop_never_saved (py : python) (count : nat)
    (lines : list string) :
  List.filter is_saved (fst (fst (choice_loop py count lines))) = [].
Proof.
  induction lines as [|l lines IH]; simpl; [reflexivity|].
  destruct (choice_loop py count lines) as [[evs' rest'] r'].
  destruct (py_int py l) as [choice|]; [|exact IH].
  destruct ((1 <=? choice) && (choice <=? Z.of_nat count)); [reflexivity|].
  exact IH.
Qed.

Lemma progress_lines_never_saved (py : python) (stderr_lines : list string) :
  List.filter is_saved (progress_lines py stderr_lines) = [].
Proof.
  induction stderr_lines as [|l ls IH]; simpl; [reflexivity|].
  destruct (_ && _); simpl; exact IH.
Qed.

Lemma select_never_saved (py : python) (ans : answers) (video_path : string)
    (w : world) :
  List.filter is_saved (events_of (select_audio_stream py ans video_path w))
  = [].
Proof.
  destruct (probe ans) as [stderr|streams|msg] eqn:Hprobe.
  - rewrite (select_probe_fails py ans video_path w stderr Hprobe).
    reflexivity.
  - destruct (List.filter is_audio streams) as [|s1 [|s2 more]] eqn:Hf.
    + rewrite (select_no_audio py ans video_path w streams Hprobe Hf).
      reflexivity.
    + rewrite (select_single py ans video_path w streams s1 Hprobe Hf).
      reflexivity.
    + assert (1 < List.length (List.filter is_audio streams))%nat as Hlen
          by (rewrite Hf; simpl; lia).
      rewrite (select_multiple py ans video_path w streams Hprobe Hlen).
      cbv zeta. project_out.
      rewrite !List.filter_app, menu_lines_never_saved,
        choice_loop_never_saved. reflexivity.
  - rewrite (select_probe_crashes py ans video_path w msg Hprobe).
    reflexivity.
Qed.

Lemma extract_never_saved (py : python) (ans : answers)
    (video_path audio_output_path : string) (stream_index : Z) (w : world) :
  List.filter is_saved
    (events_of (extract_audio py ans video_path audio_output_path
                  stream_index w)) = [].
Proof.
  rewrite extract_audio_run.
  destruct (ffmpeg ans) as [e | stderr_lines returncode written];
    project_out; [reflexivity|].
  cbn [List.filter is_saved]. rewrite List.filter_app,
    progress_lines_never_saved.
  destruct (returncode =? 0); reflexivity.
Qed.

Lemma remove_never_saved (ans : answers) (path : string) (w : world) :
  List.filter is_saved (events_of (remove_temp_audio ans path w)) = [].
Proof.
  rewrite remove_temp_audio_run.
  destruct (files w !! path); [destruct (remove_denied ans)|]; reflexivity.
Qed.

(** The loop of the transcriber ends well exactly when every cue
    renders. *)
Lemma srt_text_rendered (py : python) (segments : list segment) :
  forall i,
    snd (srt_text py i segments) = Return tt ->
    exists cues, render_cues py i segments = Return cues.
Proof.
  induction segments as [|seg rest IH]; intros i H; [simpl; eauto|].
  cbn [srt_text] in H. cbn [render_cues]. unfold render_cue.
  destruct (format_srt_timestamp (seg_start seg)) as [start_time|e];
    [|discriminate].
  destruct (format_srt_timestamp (seg_end seg)) as [end_time|e];
    [|discriminate].
  cbn [bind].
  destruct (srt_text py (N.succ i) rest) as [more r] eqn:E. cbn [snd] in H.
  destruct (IH (N.succ i)) as [cues Hcues]; [rewrite E; exact H|].
  rewrite Hcues. cbn [bind]. eauto.
Qed.

(** The success line is printed only after an extraction that succeeded,
    a transcription that returned, a file that opened and cues that all
    rendered. *)
Lemma saved_needs_rendering (py : python) (video_path : string)
    (ans : answers) (w : world) :
  List.filter is_saved (events_of (loop_body py (video_path, ans) w)) <> [] ->
  (exists stderr_lines written, ffmpeg ans = Exits stderr_lines 0 written)
  /\ exists segments cues,
       whisper ans = Segments segments /\ open_srt ans = None
       /\ render_cues py 1 segments = Return cues.
Proof.
  rewrite loop_body_run. cbv zeta.
  pose proof (select_never_saved py ans video_path w) as Hsel.
  destruct (result_of (select_audio_stream py ans video_path w))
    as [[stream_index|]|e]; project_out.
  - pose proof (extract_never_saved py ans video_path
                  (temp_audio_path py video_path) stream_index
                  (world_of (select_audio_stream py ans video_path w)))
      as Hext.
    unfold extraction_ok.
    destruct (ffmpeg ans) as [e | stderr_lines returncode written];
      [| destruct (returncode =? 0) eqn:Hcode]; project_out;
      rewrite !List.filter_app, Hsel, Hext;
      try (intros H; exfalso; apply H; reflexivity).
    apply Z.eqb_eq in Hcode. subst returncode.
    rewrite remove_never_saved, transcribe_and_save_srt_run.
    destruct (whisper ans) as [e | segments];
      [| destruct (open_srt ans) as [msg|]]; project_out;
      try (intros H; exfalso; apply H; reflexivity).
    destruct (snd (srt_text py 1 segments)) as [[]|e] eqn:Htext;
      [| intros H; exfalso; apply H; reflexivity].
    intros _. split; [eauto|].
    destruct (srt_text_rendered py segments 1 Htext) as [cues Hcues].
    exists segments, cues. auto.
  - rewrite List.filter_app, Hsel. intros H. exfalso. apply H. reflexivity.
  - rewrite Hsel. intros H. exfalso. apply H. reflexivity.
Qed.

(** When ffprobe is not installed, the exception of the probe is not an
    [ffmpeg.Error]: it leaves the selector and the loop body, after the
    SELECT_STREAM stage only. *)
Lemma probe_crash_leaves_loop_body :
  result_of (loop_body AsciiPython.py
               ("C:\anime\ep1.mkv"%string, MoreExamples.ffprobe_missing)
               (Examples.empty_disk []))
  = Raise (ExternalError "No such file or directory: 'ffprobe'")
  /\ stages (events_of (loop_body AsciiPython.py
                          ("C:\anime\ep1.mkv"%string,
                           MoreExamples.ffprobe_missing)
                          (Examples.empty_disk [])))
     = [SELECT_STREAM].
Proof. vm_compute. split; reflexivity. Qed.

(** C4, as amended: in the loop body of any video, a subtitle file is
    opened for writing only if ffmpeg exited with code 0 and
    [model.transcribe] returned its segments without raising; the file is
    reported as saved only if, in addition, it could be opened and every
    timestamp was formatted without raising; and when ffmpeg exits with
    another code, the model is not called, no subtitle file is opened,
    and the files are as before or differ only by what ffmpeg left at
    the temporary path.  (An exception raised while the cues are written
    comes after the file was created: the file is then left with the
    cues written so far.) *)
Theorem subtitle_needs_extraction_and_transcription (py : python)
    (video_path : string) (ans : answers) (w : world) :
  let run := loop_body py (video_path, ans) w in
  (List.filter is_open_write (events_of run) <> [] ->
   (exists stderr_lines written, ffmpeg ans = Exits stderr_lines 0 written)
   /\ exists segments, whisper ans = Segments segments)
  /\ (List.filter is_saved (events_of run) <> [] ->
      (exists stderr_lines written, ffmpeg ans = Exits stderr_lines 0 written)
      /\ exists segments cues,
           whisper ans = Segments segments /\ open_srt ans = None
           /\ render_cues py 1 segments = Return cues)
  /\ (forall stderr_lines returncode written,
        ffmpeg ans = Exits stderr_lines returncode written ->
        returncode <> 0 ->
        List.filter is_transcribe (events_of run) = []
        /\ List.filter is_open_write (events_of run) = []
        /\ (files (world_of run) = files w
            \/ files (world_of run)
               = ffmpeg_effect ans (temp_audio_path py video_path) (files w))).
Proof.
  cbv zeta.
  destruct (open_needs_extraction_and_model py video_path ans w)
    as [Hopen Hfail].
  split; [exact Hopen|]. split; [|exact Hfail].
  apply saved_needs_rendering.
Qed.

Lemma subtitle_needs_extraction_and_transcription_witness :
  List.filter is_transcribe (events_of Examples.failed_extraction) = []
  /\ List.filter is_open_write (events_of Examples.failed_extraction) = [].
Proof.
  destruct (subtitle_needs_extraction_and_transcription AsciiPython.py
              "C:\anime\ep1.mkv" Examples.ffmpeg_exits_1
              (Examples.empty_disk [])) as (_ & _ & Hfail).
  destruct (Hfail ["Conversion failed!"%string] 1
              (Some "RIFF-partial"%string) eq_refl) as (Htr & Hopen & _).
  - discriminate.
  - split; [exact Htr | exact Hopen].
Defined.

(** C4 fails as stated when an exception is raised while the cues are
    written: the extraction succeeds and the model returns three
    segments, the second with a negative start; the subtitle file is
    opened, the first cue and the number of the second are written, the
    formatter then fails on its assertion, the transcriber prints the
    error and not the success line, and the file stays on disk. *)
Lemma partial_subtitle_after_failed_transcription :
  List.filter is_open_write (events_of MoreExamples.partial_subtitles)
  = [EvOpenWrite "Z:\ASG\Temp\ep1.srt"]
  /\ List.In
       (EvPrint (MsgTranscriptionError
                   (AssertionError "non-negative timestamp expected")))
       (events_of MoreExamples.partial_subtitles)
  /\ List.filter is_saved (events_of MoreExamples.partial_subtitles) = []
  /\ files (world_of MoreExamples.partial_subtitles)
       !! "Z:\ASG\Temp\ep1.srt"%string
     = Some ("1" +:+ newline +:+ "00:00:00,000 --> 00:00:02,500" +:+ newline
             +:+ "hello" +:+ newline +:+ newline +:+ "2" +:+ newline)%string.
Proof.
  vm_compute. repeat split.
  repeat first [left; reflexivity | right].
Qed.

(** ** The files a loop body touches *)

Lemma ffmpeg_effect_other (ans : answers) (path p : string)
    (fs : gmap string string) :
  p <> path -> ffmpeg_effect ans path fs !! p = fs !! p.
Proof.
  intros Hp. unfold ffmpeg_effect.
  destruct (ffmpeg ans) as [|? ? [contents|]]; try reflexivity.
  apply lookup_insert_ne. congruence.
Qed.

Lemma extract_files (py : python) (ans : answers)
    (video_path audio_output_path : string) (stream_index : Z) (w : world) :
  files (world_of (extract_audio py ans video_path audio_output_path
                     stream_index w))
  = ffmpeg_effect ans audio_output_path (files w).
Proof.
  rewrite extract_audio_run. unfold ffmpeg_effect.
  destruct (ffmpeg ans) as [|? ? [contents|]]; reflexivity.
Qed.

Lemma transcribe_files_other (py : python) (ans : answers)
    (audio_path output_srt_path language : string) (w : world) (p : string) :
  p <> output_srt_path ->
  files (world_of (transcribe_and_save_srt py ans audio_path output_srt_path
                     language w)) !! p = files w !! p.
Proof.
  intros Hp. rewrite transcribe_and_save_srt_run.
  destruct (whisper ans); [|destruct (open_srt ans)]; project_out;
    try reflexivity.
  cbn [files]. apply lookup_insert_ne. congruence.
Qed.

Lemma remove_files_other (ans : answers) (path : string) (w : world)
    (p : string) :
  p <> path ->
  files (world_of (remove_temp_audio ans path w)) !! p = files w !! p.
Proof.
  intros Hp. rewrite remove_temp_audio_run.
  destruct (files w !! path); [destruct (remove_denied ans)|]; project_out;
    try reflexivity.
  cbn [files]. apply lookup_delete_ne. congruence.
Qed.

(** A loop body changes no file but the temporary waveform and the
    subtitle file of its video. *)
Lemma loop_body_frame (py : python) (video_path : string) (ans : answers)
    (w : world) (p : string) :
  p <> temp_audio_path py video_path ->
  p <> output_srt_path py video_path ->
  files (world_of (loop_body py (video_path, ans) w)) !! p = files w !! p.
Proof.
  intros Htemp Hsrt. rewrite loop_body_run. cbv zeta.
  destruct (select_summary py ans video_path w) as (_ & Hfiles & _ & _).
  destruct (result_of (select_audio_stream py ans video_path w))
    as [[stream_index|]|e]; project_out; try (rewrite Hfiles; reflexivity).
  destruct (extraction_ok ans); project_out.
  - rewrite remove_files_other, transcribe_files_other, extract_files,
      ffmpeg_effect_other, Hfiles by assumption. reflexivity.
  - rewrite extract_files, ffmpeg_effect_other, Hfiles by assumption.
    reflexivity.
Qed.

Lemma for_each_video_frame (py : python) (videos : list (string * answers))
    (p : string) :
  (forall v a, List.In (v, a) videos ->
               temp_audio_path py v <> p /\ output_srt_path py v <> p) ->
  forall w, files (world_of (for_each_video py videos w)) !! p = files w !! p.
Proof.
  induction videos as [|[v a] rest IH]; intros Hother w; [reflexivity|].
  cbn [for_each_video]. rewrite mbind_run.
  destruct (Hother v a (or_introl eq_refl)) as [Htemp Hsrt].
  assert (files (world_of (loop_body py (v, a) w)) !! p = files w !! p)
    as Hstep by (apply loop_body_frame; congruence).
  destruct (result_of (loop_body py (v, a) w)); project_out.
  - rewrite IH; [exact Hstep|].
    intros v' a' Hin. apply (Hother v' a'). right. exact Hin.
  - exact Hstep.
Qed.

(** C10, as amended: when the extraction of a video fails, its loop body
    never calls [os.remove]; what ffmpeg left at the temporary path is
    still there when the loop body ends; and it is still there after the
    following videos, provided none of them uses that path for its own
    temporary or subtitle file. *)
Theorem failed_extraction_keeps_waveform (py : python) (video_path : string)
    (ans : answers) (w : world) :
  extraction_ok ans = false ->
  let run := loop_body py (video_path, ans) w in
  let temp := temp_audio_path py video_path in
  List.filter is_remove (events_of run) = []
  /\ (forall stream_index, 
        result_of (select_audio_stream py ans video_path w)
        = Return (Some stream_index) ->
        files (world_of run) = ffmpeg_effect ans temp (files w))
  /\ forall later,
       (forall v a, List.In (v, a) later ->
                    temp_audio_path py v <> temp
                    /\ output_srt_path py v <> temp) ->
       files (world_of (for_each_video py later (world_of run))) !! temp
       = files (world_of run) !! temp.
Proof.
  intros Hfail. cbv zeta. split; [|split].
  - rewrite loop_body_run. cbv zeta. rewrite Hfail.
    destruct (select_stages py ans video_path w is_remove) as [_ Hsel].
    specialize (Hsel console_not_remove eq_refl).
    destruct (result_of (select_audio_stream py ans video_path w))
      as [[stream_index|]|e]; project_out;
      rewrite ?List.filter_app, Hsel; try reflexivity.
    destruct (extract_stages py ans video_path
                (temp_audio_path py video_path) stream_index
                (world_of (select_audio_stream py ans video_path w))
                is_remove) as (_ & Hext & _).
    rewrite (Hext console_not_remove eq_refl). reflexivity.
  - intros stream_index Hsel. rewrite loop_body_run. cbv zeta.
    rewrite Hsel, Hfail. project_out. rewrite extract_files.
    destruct (select_summary py ans video_path w) as (_ & -> & _).
    reflexivity.
  - intros later Hother. apply for_each_video_frame. exact Hother.
Qed.

Lemma failed_extraction_keeps_waveform_witness :
  extraction_ok Examples.ffmpeg_exits_1 = false
  /\ List.filter is_remove (events_of Examples.failed_extraction) = []
  /\ files (world_of Examples.failed_extraction)
     = ffmpeg_effect Examples.ffmpeg_exits_1
         (temp_audio_path AsciiPython.py "C:\anime\ep1.mkv") ∅.
Proof.
  split; [reflexivity|].
  destruct (failed_extraction_keeps_waveform AsciiPython.py
              "C:\anime\ep1.mkv" Examples.ffmpeg_exits_1
              (Examples.empty_disk []) eq_refl) as (Hrm & Hkeep & _).
  split; [exact Hrm|]. apply (Hkeep 0). reflexivity.
Defined.

(** C10 fails as stated when a later video has the same base name: the
    extraction of [C:\anime\ep1.mkv] fails and leaves a partial waveform
    at the temporary path, which is still there when its loop body ends;
    the loop body of [D:\backup\ep1.mp4] then writes its own waveform to
    that path and deletes it, so that nothing is there after the run. *)
Lemma partial_waveform_deleted_by_later_video :
  temp_audio_path AsciiPython.py "C:\anime\ep1.mkv" = "Z:\ASG\Temp\ep1.wav"%string
  /\ result_of (extract_audio AsciiPython.py Examples.ffmpeg_exits_1
                  "C:\anime\ep1.mkv" "Z:\ASG\Temp\ep1.wav" 0
                  (Examples.empty_disk []))
     = Return false
  /\ files (world_of Examples.failed_extraction) !! "Z:\ASG\Temp\ep1.wav"%string
     = Some "RIFF-partial"%string
  /\ result_of Examples.same_name_run = Return tt
  /\ List.filter is_remove (events_of Examples.same_name_run)
     = [EvRemove "Z:\ASG\Temp\ep1.wav"]
  /\ files (world_of Examples.same_name_run) !! "Z:\ASG\Temp\ep1.wav"%string
     = None.
Proof. vm_compute. repeat split. Qed.

(** C9: the temporary waveform path and the subtitle path of a video are
    functions of its base name alone: two videos of equal base names get
    the same two paths; and when the second of two such videos is
    processed after the first and succeeds, ffmpeg is asked to write to
    that same temporary path, the subtitle file is opened at that same
    subtitle path, and what the subtitle path holds in the end is the
    transcript of the second video. *)
Theorem same_base_name_same_paths (py : python) (v1 v2 : string) :
  base_name py v1 = base_name py v2 ->
  temp_audio_path py v1 = temp_audio_path py v2
  /\ output_srt_path py v1 = output_srt_path py v2
  /\ forall a1 a2 w segments,
       let run := for_each_video py [(v1, a1); (v2, a2)] w in
       result_of run = Return tt ->
       audio_streams_of a2 <> [] ->
       extraction_ok a2 = true ->
       whisper a2 = Segments segments ->
       open_srt a2 = None ->
       temp_audio_path py v2 <> output_srt_path py v2 ->
       (exists stream_index,
           List.In (EvSpawn v2 (temp_audio_path py v1) stream_index)
             (events_of run))
       /\ List.In (EvOpenWrite (output_srt_path py v1)) (events_of run)
       /\ files (world_of run) !! output_srt_path py v1
          = Some (fst (srt_text py 1 segments)).
Proof.
  intros Hbase.
  assert (temp_audio_path py v1 = temp_audio_path py v2) as Htemp
      by (unfold temp_audio_path; rewrite Hbase; reflexivity).
  assert (output_srt_path py v1 = output_srt_path py v2) as Hsrt
      by (unfold output_srt_path; rewrite Hbase; reflexivity).
  split; [exact Htemp|]. split; [exact Hsrt|].
  intros a1 a2 w segments. cbv zeta. rewrite Htemp, Hsrt.
  cbn [for_each_video]. rewrite mbind_run.
  destruct (result_of (loop_body py (v1, a1) w)) as [[]|e];
    project_out; [|discriminate].
  set (w1 := world_of (loop_body py (v1, a1) w)).
  rewrite mbind_run.
  destruct (result_of (loop_body py (v2, a2) w1)) as [[]|e] eqn:Hres2;
    project_out; [|discriminate].
  intros _ Haudio Hok Hwhisper Hopen Hne.
  unfold ret. project_out. rewrite app_nil_r.
  rewrite (loop_body_run py v2 a2 w1) in Hres2 |- *. cbv zeta in Hres2 |- *.
  destruct (select_summary py a2 v2 w1) as (_ & _ & _ & Hnone & _).
  destruct (result_of (select_audio_stream py a2 v2 w1))
    as [[stream_index|]|e];
    [| exfalso; apply Haudio, Hnone; reflexivity | discriminate].
  rewrite Hok. project_out. split; [|split].
  - exists stream_index. apply List.in_or_app. right.
    apply List.in_or_app. right. apply List.in_or_app. left.
    rewrite extract_audio_run. destruct (ffmpeg a2); project_out;
      right; left; reflexivity.
  - apply List.in_or_app. right. apply List.in_or_app. right.
    apply List.in_or_app. right. apply List.in_or_app. left.
    rewrite transcribe_and_save_srt_run, Hwhisper, Hopen. project_out.
    right. right. left. reflexivity.
  - rewrite remove_files_other by congruence.
    rewrite transcribe_and_save_srt_run, Hwhisper, Hopen. project_out.
    cbn [files]. apply lookup_insert_eq.
Qed.

Lemma same_base_name_same_paths_witness :
  base_name AsciiPython.py "C:\anime\ep1.mkv"
  = base_name AsciiPython.py "D:\backup\ep1.mp4"
  /\ temp_audio_path AsciiPython.py "C:\anime\ep1.mkv"
     = temp_audio_path AsciiPython.py "D:\backup\ep1.mp4"
  /\ output_srt_path AsciiPython.py "C:\anime\ep1.mkv"
     = output_srt_path AsciiPython.py "D:\backup\ep1.mp4"
  /\ files (world_of (for_each_video AsciiPython.py
                        [("C:\anime\ep1.mkv"%string, Examples.all_good);
                         ("D:\backup\ep1.mp4"%string, Examples.all_good_too)]
                        (Examples.empty_disk [])))
       !! output_srt_path AsciiPython.py "C:\anime\ep1.mkv"
     = Some (fst (srt_text AsciiPython.py 1 [Examples.bye])).
Proof.
  split; [reflexivity|].
  destruct (same_base_name_same_paths AsciiPython.py
              "C:\anime\ep1.mkv" "D:\backup\ep1.mp4" eq_refl)
    as (Htemp & Hsrt & Hrun).
  split; [exact Htemp|]. split; [exact Hsrt|].
  apply (Hrun Examples.all_good Examples.all_good_too
           (Examples.empty_disk []) [Examples.bye]).
  - vm_compute. reflexivity.
  - discriminate.
  - reflexivity.
  - reflexivity.
  - reflexivity.
  - vm_compute. discriminate.
Defined.

(** * Further properties *)

(** ** The outcomes of the timestamp formatter *)

Lemma iter_pos_invariant {A : Type} (P : A -> Prop) (f : A -> A) :
  (forall x, P x -> P (f x)) ->
  forall (n : positive) (x : A), P x -> P (SpecFloat.iter_pos f n x).
Proof.
  intros Hf. induction n as [n IH | n IH |]; intros x Hx; simpl; auto.
Qed.

Lemma shr_1_nonneg (mrs : shr_record) :
  0 <= shr_m mrs -> 0 <= shr_m (shr_1 mrs).
Proof.
  destruct mrs as [m r s]. simpl.
  destruct m as [|p|p]; [| destruct p | destruct p]; simpl; lia.
Qed.

Lemma shr_fexp_nonneg (m e : Z) (l : location) :
  0 <= m -> 0 <= shr_m (fst (shr_fexp Float.prec Float.emax m e l)).
Proof.
  intros Hm. unfold shr_fexp, shr.
  assert (0 <= shr_m (shr_record_of_loc m l)) as H0
      by (destruct l as [|[]]; exact Hm).
  destruct (fexp _ _ _ - e); simpl; try exact H0.
  apply (iter_pos_invariant (fun mrs => 0 <= shr_m mrs)); [|exact H0].
  apply shr_1_nonneg.
Qed.

Lemma round_nearest_even_nonneg (m : Z) (l : location) :
  0 <= m -> 0 <= round_nearest_even m l.
Proof.
  intros Hm. destruct l as [|[]]; simpl; try lia.
  destruct (Z.even m); lia.
Qed.

(** Rounding a positive mantissa never gives a NaN. *)
Lemma binary_round_aux_not_nan (s : bool) (m : positive) (e : Z) :
  binary_round_aux Float.prec Float.emax s (Zpos m) e loc_Exact <> S754_nan.
Proof.
  unfold binary_round_aux.
  pose proof (shr_fexp_nonneg (Zpos m) e loc_Exact ltac:(lia)) as H1.
  destruct (shr_fexp _ _ (Zpos m) e loc_Exact) as [mrs' e']. simpl in H1.
  pose proof (shr_fexp_nonneg
                (round_nearest_even (shr_m mrs') (loc_of_shr_record mrs'))
                e' loc_Exact
                (round_nearest_even_nonneg _ _ H1)) as H2.
  destruct (shr_fexp _ _ _ e' loc_Exact) as [mrs'' e'']. simpl in H2.
  destruct (shr_m mrs''); [discriminate | | lia].
  destruct (e'' <=? _); discriminate.
Qed.

(** X1: the formatter has three outcomes and no other.  It fails on its
    assertion exactly when [seconds >= 0] is false, which includes NaN;
    for [seconds >= 0] it raises [OverflowError] exactly when the product
    [seconds * 1000.0] is an infinity, and returns a string otherwise. *)
Theorem format_srt_timestamp_outcomes (seconds : Float.float) :
  match format_srt_timestamp seconds with
  | Return _ =>
      Float.ge seconds Float.zero = true
      /\ exists ms,
           Float.round (Float.mul seconds (Float.of_Z 1000)) = Return ms
  | Raise (AssertionError msg) =>
      Float.ge seconds Float.zero = false
      /\ msg = "non-negative timestamp expected"%string
  | Raise OverflowError =>
      Float.ge seconds Float.zero = true
      /\ exists sign,
           Float.mul seconds (Float.of_Z 1000) = S754_infinity sign
  | Raise _ => False
  end.
Proof.
  unfold format_srt_timestamp.
  destruct (Float.ge seconds Float.zero) eqn:Hge; cbn [negb];
    [|split; reflexivity].
  destruct seconds as [s | s | | s m e]; try discriminate.
  - simpl. eauto.
  - simpl. eauto.
  - change (Float.mul (S754_finite s m e) (Float.of_Z 1000))
      with (binary_round_aux Float.prec Float.emax (xorb s false)
              (Zpos (m * 8796093022208000)) (e + -43) loc_Exact).
    pose proof (binary_round_aux_not_nan (xorb s false)
                  (m * 8796093022208000) (e + -43)) as Hnan.
    destruct (binary_round_aux _ _ _ _ _ _) as [s' | s' | | s' m' e'];
      simpl; eauto.
Qed.

(** ** The fields of a timestamp *)

(** What the formatter returns, field by field. *)
Lemma format_fields (seconds : Float.float) (ms : Z) :
  Float.ge seconds Float.zero = true ->
  Float.round (Float.mul seconds (Float.of_Z 1000)) = Return ms ->
  exists h m s r : N,
    format_srt_timestamp seconds
    = Return (zfill 2 (digits h) +:+ ":" +:+ zfill 2 (digits m) +:+ ":"
              +:+ zfill 2 (digits s) +:+ "," +:+ zfill 3 (digits r))
    /\ (m < 60)%N /\ (s < 60)%N /\ (r < 1000)%N
    /\ ms = Z.of_N h * 3600000 + Z.of_N m * 60000 + Z.of_N s * 1000
            + Z.of_N r.
Proof.
  intros Hge Hround.
  pose proof (round_nonneg seconds ms Hge Hround) as Hms.
  unfold format_srt_timestamp. rewrite Hge, Hround. cbn [negb bind].
  set (hours := ms / 3600000).
  set (r1 := ms mod 3600000).
  set (minutes := r1 / 60000).
  set (r2 := r1 mod 60000).
  set (secs := r2 / 1000).
  set (millis := r2 mod 1000).
  assert (0 <= r1 < 3600000) as Hr1 by (apply Z.mod_pos_bound; lia).
  assert (0 <= r2 < 60000) as Hr2 by (apply Z.mod_pos_bound; lia).
  assert (0 <= millis < 1000) as Hr3 by (apply Z.mod_pos_bound; lia).
  assert (ms = 3600000 * hours + r1) as E1 by (apply Z.div_mod; lia).
  assert (r1 = 60000 * minutes + r2) as E2 by (apply Z.div_mod; lia).
  assert (r2 = 1000 * secs + millis) as E3 by (apply Z.div_mod; lia).
  assert (0 <= hours) as Hh by (apply Z.div_pos; lia).
  exists (Z.to_N hours), (Z.to_N minutes), (Z.to_N secs), (Z.to_N millis).
  rewrite !format_d_nonneg by lia.
  split; [reflexivity|]. rewrite !Z2N.id by lia. lia.
Qed.

Lemma format_inversion (seconds : Float.float) (s : string) :
  format_srt_timestamp seconds = Return s ->
  Float.ge seconds Float.zero = true
  /\ exists ms, Float.round (Float.mul seconds (Float.of_Z 1000)) = Return ms.
Proof.
  unfold format_srt_timestamp.
  destruct (Float.ge seconds Float.zero); cbn [negb]; [|discriminate].
  destruct (Float.round _) as [ms|e]; [eauto | discriminate].
Qed.

Lemma string_length_app (a b : string) :
  String.length (a +:+ b) = (String.length a + String.length b)%nat.
Proof. induction a as [|c a IH]; simpl; [reflexivity | now rewrite IH]. Qed.

Lemma zfill_length_ge (w : nat) (s : string) :
  (String.length s <= String.length (zfill w s))%nat.
Proof. unfold zfill. rewrite string_length_app. lia. Qed.

(** A numeral of at most two digits is below one hundred. *)
Lemma short_uint_small (d : uint) :
  (String.length (NilEmpty.string_of_uint d) <= 2)%nat ->
  (N.of_uint d < 100)%N.
Proof.
  destruct d as [|d|d|d|d|d|d|d|d|d|d];
    try (intros _; vm_compute; reflexivity);
    destruct d as [|d|d|d|d|d|d|d|d|d|d];
    try (intros _; vm_compute; reflexivity);
    destruct d as [|d|d|d|d|d|d|d|d|d|d];
    try (intros _; vm_compute; reflexivity);
    simpl; intros H; lia.
Qed.

Lemma digits_short_small (h : N) :
  (String.length (zfill 2 (digits h)) <= 2)%nat -> (h < 100)%N.
Proof.
  intros H. pose proof (zfill_length_ge 2 (digits h)) as Hge.
  rewrite digits_nil_empty in Hge, H.
  rewrite <- (DecimalN.Unsigned.of_to h). apply short_uint_small. lia.
Qed.

Lemma digit_is_not_colon (c : ascii) :
  is_digit c = true -> Ascii.eqb ":" c = false.
Proof.
  intros Hc. destruct (Ascii.eqb_spec ":" c) as [<-|]; [|reflexivity].
  discriminate.
Qed.

(** An hours field of three digits or more breaks the match. *)
Lemma match_items_long_hours (its : list regex_item) (hs rest : string) :
  all_digits hs = true -> (3 <= String.length hs)%nat ->
  match_items (Digits 2 :: Lit ":" :: its) (hs +:+ rest) = None.
Proof.
  intros Hd Hlen.
  destruct hs as [|c1 [|c2 [|c3 hs]]]; simpl in Hlen; try lia.
  simpl in Hd. apply andb_true_iff in Hd as [H1 Hd].
  apply andb_true_iff in Hd as [H2 Hd].
  apply andb_true_iff in Hd as [H3 _].
  cbn [match_items match_item match_digits String.append].
  rewrite H1, H2, (digit_is_not_colon c3 H3). reflexivity.
Qed.

(** X2: the string the formatter returns matches
    [\d{2}:\d{2}:\d{2},\d{3}] if and only if the rounded number of
    milliseconds is below 360000000, that is below one hundred hours. *)
Theorem format_srt_timestamp_pattern_iff (seconds : Float.float) (ms : Z)
    (s : string) :
  Float.round (Float.mul seconds (Float.of_Z 1000)) = Return ms ->
  format_srt_timestamp seconds = Return s ->
  (fullmatch srt_pattern s = true <-> ms < 360000000).
Proof.
  intros Hround Hs.
  destruct (format_inversion seconds s Hs) as [Hge _].
  destruct (format_fields seconds ms Hge Hround)
    as (h & m & sec & r & Hfmt & Hm & Hsec & Hr & Hms).
  rewrite Hfmt in Hs. inversion Hs as [Heq]. clear Hs. split.
  - intros Hmatch.
    destruct (Nat.le_gt_cases (String.length (zfill 2 (digits h))) 2)
      as [Hshort|Hlong].
    + apply digits_short_small in Hshort. lia.
    + unfold fullmatch, srt_pattern in Hmatch.
      rewrite match_items_long_hours in Hmatch
        by (auto using all_digits_zfill). discriminate.
  - intros Hlt. apply fullmatch_fields; lia.
Qed.

Lemma format_srt_timestamp_pattern_iff_witness :
  fullmatch srt_pattern "00:00:02,500" = true <-> 2500 < 360000000.
Proof.
  apply (format_srt_timestamp_pattern_iff (Float.of_ratio 25 10) 2500
           "00:00:02,500"); reflexivity.
Defined.

(** X3: two inputs the formatter accepts give the same string if and
    only if they round to the same number of milliseconds. *)
Theorem format_srt_timestamp_injective (a b : Float.float) (sa sb : string) :
  format_srt_timestamp a = Return sa ->
  format_srt_timestamp b = Return sb ->
  (sa = sb
   <-> Float.round (Float.mul a (Float.of_Z 1000))
       = Float.round (Float.mul b (Float.of_Z 1000))).
Proof.
  intros Ha Hb.
  destruct (format_inversion a sa Ha) as (Hga & ma & Hra).
  destruct (format_inversion b sb Hb) as (Hgb & mb & Hrb).
  destruct (format_fields a ma Hga Hra)
    as (h & m & s & r & Hfa & _ & _ & _ & Hma).
  destruct (format_fields b mb Hgb Hrb)
    as (h' & m' & s' & r' & Hfb & _ & _ & _ & Hmb).
  rewrite Hra, Hrb. split.
  - intros Heq. subst sb. rewrite Hfa in Ha. rewrite Hfb in Hb.
    assert (parse_srt_timestamp sa
            = Some (Z.of_N h * 3600000 + Z.of_N m * 60000 + Z.of_N s * 1000
                    + Z.of_N r)) as Pa
        by (injection Ha as <-; apply parse_fields).
    assert (parse_srt_timestamp sa
            = Some (Z.of_N h' * 3600000 + Z.of_N m' * 60000
                    + Z.of_N s' * 1000 + Z.of_N r')) as Pb
        by (injection Hb as <-; apply parse_fields).
    rewrite Pa in Pb. inversion Pb. f_equal. lia.
  - intros Heq. inversion Heq; subst mb.
    unfold format_srt_timestamp in Ha, Hb.
    rewrite Hga, Hra in Ha. rewrite Hgb, Hrb in Hb.
    cbn [negb bind] in Ha, Hb. congruence.
Qed.

Lemma format_srt_timestamp_injective_witness :
  "00:00:02,500"%string = "00:00:02,500"%string
  <-> Float.round (Float.mul (Float.of_ratio 25 10) (Float.of_Z 1000))
      = Float.round (Float.mul (Float.of_ratio 50001 20000)
                       (Float.of_Z 1000)).
Proof.
  apply (format_srt_timestamp_injective (Float.of_ratio 25 10)
           (Float.of_ratio 50001 20000)); reflexivity.
Defined.

(** ** More on the audio stream selector *)



(** X5: an index the selector returns is a valid position among the
    audio streams: at least 0 and below their number. *)
Theorem select_audio_stream_in_range (py : python) (ans : answers)
    (video_path : string) (w : world) (i : Z) :
  result_of (select_audio_stream py ans video_path w) = Return (Some i) ->
  0 <= i < Z.of_nat (List.length (audio_streams_of ans)).
Proof.
  unfold audio_streams_of.
  destruct (probe ans) as [stderr|streams|msg] eqn:Hprobe.
  { rewrite (select_probe_fails py ans video_path w stderr Hprobe).
    project_out. discriminate. }
  2: { rewrite (select_probe_crashes py ans video_path w msg Hprobe).
       project_out. discriminate. }
  destruct (List.filter is_audio streams) as [|s1 [|s2 more]] eqn:Hf.
  - rewrite (select_no_audio py ans video_path w streams Hprobe Hf).
    project_out. discriminate.
  - rewrite (select_single py ans video_path w streams s1 Hprobe Hf).
    project_out. intros H. inversion H. simpl. lia.
  - assert (1 < List.length (List.filter is_audio streams))%nat as Hlen
        by (rewrite Hf; simpl; lia).
    rewrite (select_multiple py ans video_path w streams Hprobe Hlen).
    cbv zeta. project_out. rewrite Hf.
    destruct (choice_loop py (List.length (s1 :: s2 :: more)) (stdin w))
      as [[evs rest] [c|e]] eqn:E; simpl; [|discriminate].
    intros H. inversion H; subst c.
    destruct (choice_loop_returns _ _ _ _ _ _ E)
      as (bad & line & choice & _ & _ & _ & Hrange & ->).
    simpl in Hrange |- *. lia.
Qed.

Lemma select_audio_stream_in_range_witness :
  0 <= 1 < Z.of_nat (List.length (audio_streams_of Examples.two_streams)).
Proof.
  apply (select_audio_stream_in_range AsciiPython.py Examples.two_streams
           "C:\anime\ep2.mkv"
           (Examples.empty_disk ["x"; "7"; " 2 "; "1"]%string) 1).
  vm_compute. reflexivity.
Defined.

Lemma menu_lines_in (py : python) (audio_streams : list stream) :
  forall (i : Z) (k : nat) (s : stream),
    audio_streams !! k = Some s ->
    List.In (EvPrint (MsgMenuLine (i + Z.of_nat k + 1)
                        (py_upper py (default "unknown"%string (tag_language s)))
                        (default "No Title"%string (tag_title s))
                        (default "N/A"%string (codec_name s))
                        (default "N/A"%string (channel_layout s))))
      (menu_lines py i audio_streams).
Proof.
  induction audio_streams as [|s0 l IH]; intros i k s Hk; [discriminate|].
  destruct k as [|k]; simpl in Hk.
  - inversion Hk; subst s0. left. do 2 f_equal. lia.
  - right. replace (i + Z.of_nat (S k) + 1) with ((i + 1) + Z.of_nat k + 1)
      by lia. apply IH. exact Hk.
Qed.

(** X6: with more than one audio stream, the menu shows the stream at
    position [k] under the number [k + 1], with ["unknown"], ["No Title"]
    and ["N/A"] for the tags it lacks; and when the first entry of the
    operator is that number, the selector returns [k]. *)
Theorem select_audio_stream_menu (py : python) (ans : answers)
    (video_path : string) (w : world) (k : nat) (s : stream) :
  (1 < List.length (audio_streams_of ans))%nat ->
  audio_streams_of ans !! k = Some s ->
  let run := select_audio_stream py ans video_path w in
  List.In (menu_line py k s) (events_of run)
  /\ forall line rest,
       stdin w = line :: rest ->
       py_int py line = Some (Z.of_nat k + 1) ->
       result_of run = Return (Some (Z.of_nat k))
       /\ stdin (world_of run) = rest.
Proof.
  unfold audio_streams_of. intros Hlen Hk. cbv zeta.
  destruct (probe ans) as [stderr|streams|msg] eqn:Hprobe;
    [discriminate | | discriminate].
  rewrite (select_multiple py ans video_path w streams Hprobe Hlen).
  cbv zeta. project_out. split.
  - apply List.in_or_app. right. apply List.in_or_app. left.
    apply (menu_lines_in py _ 0 k s Hk).
  - intros line rest Hin Hint. rewrite Hin.
    assert (1 <= Z.of_nat k + 1
            <= Z.of_nat (List.length (List.filter is_audio streams)))
      as Hrange.
    { apply lookup_lt_Some in Hk. lia. }
    rewrite (choice_loop_accepted py _ line rest _ Hint Hrange). simpl.
    split; [|reflexivity]. do 2 f_equal. lia.
Qed.

Lemma select_audio_stream_menu_witness :
  List.In (menu_line AsciiPython.py 1 Examples.eng)
    (events_of (select_audio_stream AsciiPython.py Examples.two_streams
                  "C:\anime\ep2.mkv" (Examples.empty_disk ["2"%string])))
  /\ result_of (select_audio_stream AsciiPython.py Examples.two_streams
                  "C:\anime\ep2.mkv" (Examples.empty_disk ["2"%string]))
     = Return (Some 1).
Proof.
  destruct (select_audio_stream_menu AsciiPython.py Examples.two_streams
              "C:\anime\ep2.mkv" (Examples.empty_disk ["2"%string])
              1 Examples.eng) as [Hmenu Hchoice].
  - simpl. lia.
  - reflexivity.
  - split; [exact Hmenu|].
    apply (Hchoice "2"%string []); reflexivity.
Defined.

(** ** The progress display of the extractor *)

Lemma prefix_occurs (needle text : string) :
  String.prefix needle text = true <-> exists post, text = needle +:+ post.
Proof.
  revert text. induction needle as [|c needle IH]; intros text.
  - destruct text; simpl; (split; [intros _; eauto | reflexivity]).
  - destruct text as [|c' text]; simpl.
    + split; [discriminate | intros [post H]; discriminate].
    + destruct (ascii_dec c c') as [<-|Hne].
      * rewrite IH. split; intros [post H]; exists post; congruence.
      * split; [discriminate | intros [post H]; congruence].
Qed.

(** [contains] decides the occurrence of a substring. *)
Lemma contains_occurs (needle text : string) :
  contains needle text = true <-> occurs_in needle text.
Proof.
  unfold occurs_in. induction text as [|c text IH]; cbn [contains].
  - destruct (String.prefix needle EmptyString) eqn:Hp.
    + apply prefix_occurs in Hp as [post Hp].
      split; [intros _; exists EmptyString, post; exact Hp | reflexivity].
    + split; [discriminate|]. intros (pre & post & H).
      destruct pre; [|discriminate]. simpl in H.
      assert (String.prefix needle EmptyString = true) as Habs
          by (apply prefix_occurs; eauto).
      congruence.
  - destruct (String.prefix needle (String c text)) eqn:Hp.
    + apply prefix_occurs in Hp as [post Hp].
      split; [intros _; exists EmptyString, post; exact Hp | reflexivity].
    + rewrite IH. split.
      * intros (pre & post & H). exists (String c pre), post.
        simpl. congruence.
      * intros (pre & post & H). destruct pre as [|c' pre].
        -- simpl in H.
           assert (String.prefix needle (String c text) = true) as Habs
               by (apply prefix_occurs; eauto).
           congruence.
        -- simpl in H. inversion H. eauto.
Qed.

Lemma progress_lines_in (py : python) (stderr_lines : list string)
    (text : string) :
  List.In (EvPrint (MsgProgress text)) (progress_lines py stderr_lines)
  <-> exists line,
        List.In line stderr_lines /\ text = py_strip py line
        /\ contains "time=" text = true /\ contains "speed=" text = true.
Proof.
  induction stderr_lines as [|l ls IH]; simpl.
  - split; [tauto | intros (line & [] & _)].
  - destruct (contains "time=" (py_strip py l)
              && contains "speed=" (py_strip py l)) eqn:Hc.
    + simpl. rewrite IH. apply andb_true_iff in Hc as [H1 H2]. split.
      * intros [H | (line & Hin & Hrest)].
        -- inversion H; subst text. exists l. auto.
        -- exists line. auto.
      * intros (line & [<- | Hin] & Ht & Hrest).
        -- left. subst text. reflexivity.
        -- right. exists line. auto.
    + rewrite IH. split.
      * intros (line & Hin & Hrest). exists line. auto.
      * intros (line & [<- | Hin] & Ht & H1 & H2).
        -- subst text. rewrite H1, H2 in Hc. discriminate.
        -- exists line. auto.
Qed.

(** X7: while ffmpeg runs, the extractor echoes a status line, stripped,
    if and only if the stripped line contains both ["time="] and
    ["speed="]; every other line of the error stream is dropped. *)
Theorem extract_audio_progress (py : python) (ans : answers)
    (video_path audio_output_path : string) (stream_index : Z) (w : world)
    (stderr_lines : list string) (returncode : Z) (written : option string)
    (text : string) :
  ffmpeg ans = Exits stderr_lines returncode written ->
  List.In (EvPrint (MsgProgress text))
    (events_of (extract_audio py ans video_path audio_output_path
                  stream_index w))
  <-> exists line,
        List.In line stderr_lines /\ text = py_strip py line
        /\ occurs_in "time=" text /\ occurs_in "speed=" text.
Proof.
  intros Hff. rewrite extract_audio_run, Hff. project_out.
  cbn [List.In]. rewrite List.in_app_iff. cbn [List.In].
  split.
  - intros [H | [H | [H | [H | [H | []]]]]]; try discriminate.
    + apply progress_lines_in in H as (line & Hin & Ht & H1 & H2).
      apply contains_occurs in H1, H2. exists line. auto.
    + destruct (returncode =? 0); discriminate.
  - intros (line & Hin & Ht & H1 & H2). right. right. left.
    apply progress_lines_in. apply contains_occurs in H1, H2.
    exists line. auto.
Qed.

Lemma extract_audio_progress_witness :
  List.In (EvPrint (MsgProgress "size=1kB time=00:00:01.00 speed=30x"))
    (events_of (extract_audio AsciiPython.py Examples.all_good
                  "C:\anime\ep1.mkv" "Z:\ASG\Temp\ep1.wav" 0
                  (Examples.empty_disk [])))
  <-> exists line,
        List.In line ["size=1kB time=00:00:01.00 speed=30x"%string]
        /\ "size=1kB time=00:00:01.00 speed=30x"%string
           = py_strip AsciiPython.py line
        /\ occurs_in "time=" "size=1kB time=00:00:01.00 speed=30x"
        /\ occurs_in "speed=" "size=1kB time=00:00:01.00 speed=30x".
Proof.
  apply (extract_audio_progress AsciiPython.py Examples.all_good
           "C:\anime\ep1.mkv" "Z:\ASG\Temp\ep1.wav" 0
           (Examples.empty_disk [])
           ["size=1kB time=00:00:01.00 speed=30x"%string] 0
           (Some "RIFF"%string)).
  reflexivity.
Defined.

(** ** More on the transcriber *)

(** X8: the transcriber never raises and never reads the console.  When
    [model.transcribe] raises, or when the subtitle file cannot be
    opened, it prints the error and leaves every file as it was. *)
Theorem transcribe_and_save_srt_catches (py : python) (ans : answers)
    (audio_path output_srt_path language : string) (w : world) :
  let run :=
    transcribe_and_save_srt py ans audio_path output_srt_path language w in
  result_of run = Return tt
  /\ stdin (world_of run) = stdin w
  /\ (forall e,
        whisper ans = TranscribeFails e ->
        world_of run = w
        /\ events_of run
           = [EvPrint MsgTranscribing; EvTranscribe audio_path language;
              EvPrint (MsgTranscriptionError e)])
  /\ (forall segments msg,
        whisper ans = Segments segments -> open_srt ans = Some msg ->
        world_of run = w
        /\ events_of run
           = [EvPrint MsgTranscribing; EvTranscribe audio_path language;
              EvOpenWrite output_srt_path;
              EvPrint (MsgTranscriptionError (OSError msg))]).
Proof.
  cbv zeta. rewrite transcribe_and_save_srt_run.
  destruct (whisper ans) as [e | segments];
    [| destruct (open_srt ans) as [msg|]]; project_out;
    (split; [reflexivity|]); (split; [reflexivity|]); split.
  - intros e' H. inversion H. auto.
  - intros segs msg H. discriminate.
  - intros e H. discriminate.
  - intros segs msg' _ H. inversion H. auto.
  - intros e H. discriminate.
  - intros segs msg _ H. discriminate.
Qed.

Lemma transcribe_and_save_srt_catches_witness :
  world_of (transcribe_and_save_srt AsciiPython.py
              MoreExamples.read_only_disk "Z:\ASG\Temp\ep1.wav"
              "Z:\ASG\Temp\ep1.srt" LANGUAGE MoreExamples.old_subtitles)
  = MoreExamples.old_subtitles
  /\ events_of (transcribe_and_save_srt AsciiPython.py
                  MoreExamples.read_only_disk "Z:\ASG\Temp\ep1.wav"
                  "Z:\ASG\Temp\ep1.srt" LANGUAGE MoreExamples.old_subtitles)
     = [EvPrint MsgTranscribing; EvTranscribe "Z:\ASG\Temp\ep1.wav" LANGUAGE;
        EvOpenWrite "Z:\ASG\Temp\ep1.srt";
        EvPrint (MsgTranscriptionError (OSError "Permission denied"))].
Proof.
  destruct (transcribe_and_save_srt_catches AsciiPython.py
              MoreExamples.read_only_disk "Z:\ASG\Temp\ep1.wav"
              "Z:\ASG\Temp\ep1.srt" LANGUAGE MoreExamples.old_subtitles)
    as (_ & _ & _ & Hopen).
  apply (Hopen [Examples.hello] "Permission denied"%string); reflexivity.
Defined.

(** The text of the loop, cue by cue: after cues that render, the loop
    goes on with the next number. *)
Lemma srt_text_app (py : python) (good : list segment) :
  forall (i : N) (cues : list string) (rest : list segment),
    render_cues py i good = Return cues ->
    srt_text py i (good ++ rest)
    = (concat_strings cues
       +:+ fst (srt_text py (i + N.of_nat (List.length good)) rest),
       snd (srt_text py (i + N.of_nat (List.length good)) rest))
    /\ List.length cues = List.length good.
Proof.
  induction good as [|seg good IH]; intros i cues rest Hr.
  - simpl in Hr. inversion Hr; subst cues. simpl.
    rewrite N.add_0_r. destruct (srt_text py i rest). auto.
  - cbn [render_cues] in Hr. unfold render_cue in Hr.
    cbn [app srt_text].
    destruct (format_srt_timestamp (seg_start seg)) as [start_time|e];
      cbn [bind] in Hr; [|discriminate].
    destruct (format_srt_timestamp (seg_end seg)) as [end_time|e];
      cbn [bind] in Hr; [|discriminate].
    destruct (render_cues py (N.succ i) good) as [cues'|e] eqn:Hcues;
      cbn [bind] in Hr; [|discriminate].
    match type of Hr with
    | Return (?c :: _) = _ => assert (cues = c :: cues') as -> by congruence
    end.
    destruct (IH (N.succ i) cues' rest Hcues) as [-> Hlen].
    replace (N.succ i + N.of_nat (List.length good))%N
      with (i + N.of_nat (List.length (seg :: good)))%N
      by (cbn [List.length]; lia).
    cbn [concat_strings fst snd List.length].
    rewrite !string_app_assoc. split; [reflexivity | lia].
Qed.

Lemma srt_text_bad_cue (py : python) (i : N) (bad : segment)
    (rest : list segment) (e : py_exception) :
  render_cue py i bad = Raise e ->
  srt_text py i (bad :: rest) = (digits i +:+ newline, Raise e).
Proof.
  unfold render_cue. cbn [srt_text]. intros H.
  destruct (format_srt_timestamp (seg_start bad)) as [start_time|e1];
    cbn [bind] in H; [|congruence].
  destruct (format_srt_timestamp (seg_end bad)) as [end_time|e2];
    cbn [bind] in H; [discriminate | congruence].
Qed.

(** X9: when the model returns its segments, the subtitle file opens and
    every cue renders, the file holds exactly the cues, numbered from 1,
    one per segment, whatever it held before; the success line is
    printed; and no other file changes. *)
Theorem transcribe_and_save_srt_writes_cues (py : python) (ans : answers)
    (audio_path output_srt_path language : string) (w : world)
    (segments : list segment) (cues : list string) :
  whisper ans = Segments segments ->
  open_srt ans = None ->
  render_cues py 1 segments = Return cues ->
  let run :=
    transcribe_and_save_srt py ans audio_path output_srt_path language w in
  files (world_of run) !! output_srt_path = Some (concat_strings cues)
  /\ List.length cues = List.length segments
  /\ events_of run
     = [EvPrint MsgTranscribing; EvTranscribe audio_path language;
        EvOpenWrite output_srt_path;
        EvPrint (MsgSubtitlesSaved output_srt_path)]
  /\ forall p, p <> output_srt_path ->
               files (world_of run) !! p = files w !! p.
Proof.
  intros Hwhisper Hopen Hcues. cbv zeta.
  rewrite transcribe_and_save_srt_run, Hwhisper, Hopen. project_out.
  destruct (srt_text_app py segments 1 cues [] Hcues) as [Htext Hlen].
  rewrite app_nil_r in Htext. rewrite Htext. cbn [srt_text fst snd files].
  rewrite string_app_nil_r.
  split; [apply lookup_insert_eq|]. split; [exact Hlen|].
  split; [reflexivity|].
  intros p Hp. apply lookup_insert_ne. congruence.
Qed.

Lemma transcribe_and_save_srt_writes_cues_witness :
  files (world_of (transcribe_and_save_srt AsciiPython.py Examples.all_good
                     "Z:\ASG\Temp\ep1.wav" "Z:\ASG\Temp\ep1.srt" LANGUAGE
                     MoreExamples.old_subtitles))
    !! "Z:\ASG\Temp\ep1.srt"%string
  = Some (concat_strings
            [("1" +:+ newline +:+ "00:00:00,000 --> 00:00:02,500" +:+ newline
              +:+ "hello" +:+ newline +:+ newline)%string;
             ("2" +:+ newline +:+ "00:00:02,500 --> 00:00:04,000" +:+ newline
              +:+ "world" +:+ newline +:+ newline)%string]).
Proof.
  apply (transcribe_and_save_srt_writes_cues AsciiPython.py Examples.all_good
           "Z:\ASG\Temp\ep1.wav" "Z:\ASG\Temp\ep1.srt" LANGUAGE
           MoreExamples.old_subtitles [Examples.hello; Examples.world_]);
    reflexivity.
Defined.

(** X10: when a cue cannot be rendered because one of its timestamps is
    refused by the formatter, the writing stops there: the file holds
    the cues before it followed by the number of the failing cue, the
    error is printed instead of the success line, and the transcriber
    still returns. *)
Theorem transcribe_and_save_srt_stops_at_bad_cue (py : python)
    (ans : answers) (audio_path output_srt_path language : string)
    (w : world) (good : list segment) (bad : segment)
    (rest : list segment) (cues : list string) (e : py_exception) :
  whisper ans = Segments (good ++ bad :: rest) ->
  open_srt ans = None ->
  render_cues py 1 good = Return cues ->
  render_cue py (1 + N.of_nat (List.length good)) bad = Raise e ->
  let run :=
    transcribe_and_save_srt py ans audio_path output_srt_path language w in
  result_of run = Return tt
  /\ files (world_of run) !! output_srt_path
     = Some (concat_strings cues
             +:+ digits (1 + N.of_nat (List.length good)) +:+ newline)
  /\ events_of run
     = [EvPrint MsgTranscribing; EvTranscribe audio_path language;
        EvOpenWrite output_srt_path; EvPrint (MsgTranscriptionError e)].
Proof.
  intros Hwhisper Hopen Hcues Hbad. cbv zeta.
  rewrite transcribe_and_save_srt_run, Hwhisper, Hopen. project_out.
  destruct (srt_text_app py good 1 cues (bad :: rest) Hcues) as [Htext _].
  rewrite (srt_text_bad_cue py _ bad rest e Hbad) in Htext.
  rewrite Htext. cbn [fst snd files].
  split; [reflexivity|]. split; [apply lookup_insert_eq | reflexivity].
Qed.

Lemma transcribe_and_save_srt_stops_at_bad_cue_witness :
  files (world_of (transcribe_and_save_srt AsciiPython.py
                     MoreExamples.bad_timestamp "Z:\ASG\Temp\ep1.wav"
                     "Z:\ASG\Temp\ep1.srt" LANGUAGE
                     MoreExamples.old_subtitles))
    !! "Z:\ASG\Temp\ep1.srt"%string
  = Some (concat_strings
            [("1" +:+ newline +:+ "00:00:00,000 --> 00:00:02,500" +:+ newline
              +:+ "hello" +:+ newline +:+ newline)%string]
          +:+ digits 2 +:+ newline).
Proof.
  destruct (transcribe_and_save_srt_stops_at_bad_cue AsciiPython.py
              MoreExamples.bad_timestamp "Z:\ASG\Temp\ep1.wav"
              "Z:\ASG\Temp\ep1.srt" LANGUAGE MoreExamples.old_subtitles
              [Examples.hello] MoreExamples.negative [Examples.bye]
              [("1" +:+ newline +:+ "00:00:00,000 --> 00:00:02,500"
                +:+ newline +:+ "hello" +:+ newline +:+ newline)%string]
              (AssertionError "non-negative timestamp expected"))
    as (_ & Hfile & _);
    [reflexivity | reflexivity | reflexivity | reflexivity | exact Hfile].
Defined.

(** ** The batch *)

(** The stages of a loop body that returns. *)
Lemma loop_body_returns_stages (py : python) (video_path : string)
    (ans : answers) (w : world) :
  result_of (loop_body py (video_path, ans) w) = Return tt ->
  stages (events_of (loop_body py (video_path, ans) w))
  = stages_of_answers ans.
Proof.
  unfold stages_of_answers. rewrite loop_body_run. cbv zeta.
  destruct (select_summary py ans video_path w)
    as (_ & _ & _ & Hnone & Hsome).
  destruct (select_stages py ans video_path w is_remove) as [Hsel _].
  destruct (result_of (select_audio_stream py ans video_path w))
    as [[stream_index|]|e] eqn:Hres.
  - destruct (audio_streams_of ans) as [|s l] eqn:Haudio.
    { destruct (Hsome stream_index eq_refl eq_refl). }
    destruct (extract_stages py ans video_path
                (temp_audio_path py video_path) stream_index
                (world_of (select_audio_stream py ans video_path w))
                is_remove) as [Hext _].
    destruct (extraction_ok ans); project_out; intros _;
      rewrite !stages_app, Hsel, Hext; [|reflexivity].
    match goal with
    | |- context [stages (events_of (transcribe_and_save_srt ?p ?a ?x ?y ?l ?w0))] =>
        destruct (transcribe_stages p a x y l w0) as [-> _]
    end.
    match goal with
    | |- context [stages (events_of (remove_temp_audio ?a ?x ?w0))] =>
        destruct (remove_stages a x w0) as [-> _]
    end.
    reflexivity.
  - assert (audio_streams_of ans = []) as -> by (apply Hnone; reflexivity).
    project_out. intros _. rewrite stages_app, Hsel. reflexivity.
  - project_out. discriminate.
Qed.

Lemma for_each_video_stages (py : python) (videos : list (string * answers)) :
  forall w,
    result_of (for_each_video py videos w) = Return tt ->
    stages (events_of (for_each_video py videos w))
    = List.flat_map (fun video => stages_of_answers (snd video)) videos.
Proof.
  induction videos as [|[v a] rest IH]; intros w; [reflexivity|].
  cbn [for_each_video List.flat_map snd]. rewrite mbind_run.
  destruct (result_of (loop_body py (v, a) w)) as [[]|e] eqn:Hbody;
    project_out; [|discriminate].
  intros Hrest. rewrite stages_app, (IH _ Hrest).
  rewrite (loop_body_returns_stages py v a w Hbody). reflexivity.
Qed.

(** [main], case by case. *)
Lemma main_run (py : python) (videos : list (string * answers))
    (load_model : result bool) (w : world) :
  main py videos load_model w
  = match os_makedirs py OUTPUT_DIR with
    | Raise e => ([EvMakedirs OUTPUT_DIR], w, Raise e)
    | Return _ =>
        match tk_dialog py with
        | Raise e => ([EvMakedirs OUTPUT_DIR; EvSelectFiles], w, Raise e)
        | Return _ =>
            match videos with
            | [] =>
                ([EvMakedirs OUTPUT_DIR; EvSelectFiles;
                  EvPrint MsgNoFilesSelected], w, Return tt)
            | _ :: _ =>
                match load_model with
                | Raise e =>
                    ([EvMakedirs OUTPUT_DIR; EvSelectFiles;
                      EvPrint (MsgLoadingModel MODEL_SIZE);
                      EvLoadModel MODEL_SIZE;
                      EvPrint (MsgModelLoadFailed e)], w, Return tt)
                | Return cuda =>
                    let loop := for_each_video py videos w in
                    match result_of loop with
                    | Return _ =>
                        ([EvMakedirs OUTPUT_DIR; EvSelectFiles;
                          EvPrint (MsgLoadingModel MODEL_SIZE);
                          EvLoadModel MODEL_SIZE;
                          EvPrint (MsgModelLoaded cuda)]
                           ++ events_of loop ++ [EvPrint MsgAllDone],
                         world_of loop, Return tt)
                    | Raise e =>
                        ([EvMakedirs OUTPUT_DIR; EvSelectFiles;
                          EvPrint (MsgLoadingModel MODEL_SIZE);
                          EvLoadModel MODEL_SIZE;
                          EvPrint (MsgModelLoaded cuda)]
                           ++ events_of loop, world_of loop, Raise e)
                    end
                end
            end
        end
    end.
Proof.
  unfold main, makedirs, select_files, print, mbind, emit.
  destruct (os_makedirs py OUTPUT_DIR) as [[]|e]; [|reflexivity].
  destruct (tk_dialog py) as [[]|e]; [|reflexivity].
  destruct videos as [|video rest]; [reflexivity|].
  destruct load_model as [cuda|e]; [|reflexivity].
  cbv beta iota zeta.
  destruct (for_each_video py (video :: rest) w) as [[evs w1] [[]|e]];
    project_out; reflexivity.
Qed.

(** X11: each video of a completed run goes through the stages its own
    answers determine, in the order of the selection, whatever happened
    to the videos before it: a video without audio stream, a failed
    extraction or a failed transcription never ends the batch; and the
    completion line is printed last. *)
Theorem main_stages (py : python) (videos : list (string * answers))
    (cuda : bool) (w : world) :
  videos <> [] ->
  result_of (main py videos (Return cuda) w) = Return tt ->
  stages (events_of (main py videos (Return cuda) w))
  = List.flat_map (fun video => stages_of_answers (snd video)) videos
  /\ List.last (events_of (main py videos (Return cuda) w)) EvNextFile
     = EvPrint MsgAllDone.
Proof.
  intros Hne. rewrite main_run.
  destruct (os_makedirs py OUTPUT_DIR) as [[]|e]; project_out;
    [|discriminate].
  destruct (tk_dialog py) as [[]|e]; project_out; [|discriminate].
  destruct videos as [|video rest]; [congruence|]. cbv zeta.
  destruct (result_of (for_each_video py (video :: rest) w))
    as [[]|e] eqn:Hloop; project_out; [|discriminate].
  intros _. split.
  - rewrite !stages_app. cbn [stages stage_of_event app].
    rewrite app_nil_r. apply for_each_video_stages. exact Hloop.
  - rewrite !app_assoc. apply List.last_last.
Qed.

Lemma main_stages_witness :
  stages (events_of Examples.same_name_run)
  = [SELECT_STREAM; EXTRACT; DONE;
     SELECT_STREAM; EXTRACT; TRANSCRIBE; CLEANUP; DONE].
Proof.
  destruct (main_stages AsciiPython.py
              [("C:\anime\ep1.mkv"%string, Examples.ffmpeg_exits_1);
               ("D:\backup\ep1.mp4"%string, Examples.all_good)]
              true (Examples.empty_disk [])) as [Hstages _].
  - discriminate.
  - vm_compute. reflexivity.
  - exact Hstages.
Defined.










(** X14: after an extraction that succeeded, the loop body calls
    [os.remove] on the temporary path once, whether the transcription
    succeeded or not, and returns.  If the removal is not refused, no
    file is left at the temporary path; if it is refused and the file is
    still there, the warning was printed. *)
Theorem loop_body_cleans_up (py : python) (video_path : string)
    (ans : answers) (w : world) (stream_index : Z) :
  result_of (select_audio_stream py ans video_path w)
  = Return (Some stream_index) ->
  extraction_ok ans = true ->
  let run := loop_body py (video_path, ans) w in
  let temp := temp_audio_path py video_path in
  result_of run = Return tt
  /\ List.filter is_remove (events_of run) = [EvRemove temp]
  /\ (remove_denied ans = None -> files (world_of run) !! temp = None)
  /\ (forall msg contents,
        remove_denied ans = Some msg ->
        files (world_of run) !! temp = Some contents ->
        List.In (EvPrint (MsgCouldNotDelete temp (OSError msg)))
          (events_of run)).
Proof.
  intros Hsel Hok. cbv zeta. rewrite loop_body_run. cbv zeta.
  rewrite Hsel, Hok. project_out.
  destruct (select_stages py ans video_path w is_remove) as [_ Hf_sel].
  specialize (Hf_sel console_not_remove eq_refl).
  set (sel := select_audio_stream py ans video_path w) in *.
  destruct (extract_stages py ans video_path (temp_audio_path py video_path)
              stream_index (world_of sel) is_remove) as (_ & Hf_ext & _).
  specialize (Hf_ext console_not_remove eq_refl).
  set (ext := extract_audio py ans video_path (temp_audio_path py video_path)
                stream_index (world_of sel)) in *.
  destruct (transcribe_stages py ans (temp_audio_path py video_path)
              (output_srt_path py video_path) LANGUAGE (world_of ext))
    as (_ & _ & Hf_tr & _).
  set (tr := transcribe_and_save_srt py ans (temp_audio_path py video_path)
               (output_srt_path py video_path) LANGUAGE (world_of ext)) in *.
  split; [reflexivity|]. split.
  - destruct (remove_stages ans (temp_audio_path py video_path) (world_of tr))
      as (_ & _ & _ & Hf_rm).
    rewrite !List.filter_app, Hf_sel, Hf_ext, Hf_tr, Hf_rm. reflexivity.
  - rewrite remove_temp_audio_run.
    destruct (files (world_of tr) !! temp_audio_path py video_path)
      as [old|] eqn:Hold; [destruct (remove_denied ans) as [msg|]|];
      project_out; cbn [files]; split.
    + discriminate.
    + intros msg' contents Hmsg _. inversion Hmsg; subst msg'.
      do 3 (apply List.in_or_app; right). apply List.in_or_app. left.
      right. left. reflexivity.
    + intros _. apply lookup_delete_eq.
    + intros msg contents Hmsg. discriminate.
    + intros _. exact Hold.
    + intros msg contents _ Hsome. congruence.
Qed.

Lemma loop_body_cleans_up_witness :
  List.filter is_remove (events_of Examples.failed_transcription)
  = [EvRemove (temp_audio_path AsciiPython.py "C:\anime\ep3.mkv")]
  /\ files (world_of Examples.failed_transcription)
       !! temp_audio_path AsciiPython.py "C:\anime\ep3.mkv" = None.
Proof.
  destruct (loop_body_cleans_up AsciiPython.py "C:\anime\ep3.mkv"
              Examples.whisper_raises (Examples.empty_disk []) 0)
    as (_ & Hrm & Hgone & _).
  - reflexivity.
  - reflexivity.
  - split; [exact Hrm | apply Hgone; reflexivity].
Defined.

(** X15: a run changes no file except at the temporary and subtitle
    paths of the selected videos: a file at any other path is after the
    run what it was before. *)
Theorem main_touches_only_its_paths (py : python)
    (videos : list (string * answers)) (load_model : result bool)
    (w : world) (p : string) :
  (forall v a, List.In (v, a) videos ->
               temp_audio_path py v <> p /\ output_srt_path py v <> p) ->
  files (world_of (main py videos load_model w)) !! p = files w !! p.
Proof.
  intros Hother. rewrite main_run.
  destruct (os_makedirs py OUTPUT_DIR) as [[]|e]; [|reflexivity].
  destruct (tk_dialog py) as [[]|e]; [|reflexivity].
  destruct videos as [|video rest]; [reflexivity|].
  destruct load_model as [cuda|e]; [|reflexivity]. cbv zeta.
  pose proof (for_each_video_frame py (video :: rest) p Hother w) as Hframe.
  destruct (result_of (for_each_video py (video :: rest) w));
    project_out; exact Hframe.
Qed.

Lemma main_touches_only_its_paths_witness :
  files (world_of (main AsciiPython.py
                     [("C:\anime\ep3.mkv"%string, Examples.all_good)]
                     (Return true) MoreExamples.old_subtitles))
    !! "Z:\ASG\Temp\ep1.srt"%string
  = Some "old subtitles"%string.
Proof.
  apply (main_touches_only_its_paths AsciiPython.py
           [("C:\anime\ep3.mkv"%string, Examples.all_good)]
           (Return true) MoreExamples.old_subtitles "Z:\ASG\Temp\ep1.srt").
  intros v a [H | []]. inversion H; subst. vm_compute.
  split; discriminate.
Defined.

(** ** The console lines the selector reads *)

Lemma menu_lines_no_input (py : python) (i : Z) (audio_streams : list stream) :
  List.filter is_input (menu_lines py i audio_streams) = [].
Proof.
  revert i. induction audio_streams as [|s l IH]; intros i; simpl; auto.
Qed.

Lemma choice_loop_reads (py : python) (count : nat) (lines : list string) :
  forall evs rest c,
    choice_loop py count lines = (evs, rest, Return c) ->
    exists consumed,
      lines = consumed ++ rest
      /\ List.length consumed = List.length (List.filter is_input evs).
Proof.
  induction lines as [|l lines IH]; intros evs rest c H; [discriminate|].
  simpl in H.
  destruct (choice_loop py count lines) as [[evs' rest'] r'] eqn:E.
  assert (forall m, (EvInput count :: EvPrint m :: evs', rest', r')
                    = (evs, rest, Return c) ->
                    exists consumed,
                      l :: lines = consumed ++ rest
                      /\ List.length consumed
                         = List.length (List.filter is_input evs)) as Hrej.
  { intros m Hm. inversion Hm; subst.
    destruct (IH _ _ _ eq_refl) as (consumed & -> & Hlen).
    exists (l :: consumed). simpl. split; [reflexivity | lia]. }
  destruct (py_int py l) as [choice|]; [|eauto].
  destruct ((1 <=? choice) && (choice <=? Z.of_nat count)); [|eauto].
  inversion H; subst. exists [l]. split; reflexivity.
Qed.

(** X16: the selector reads one console line for each call of [input],
    in order: when it returns, the lines it has read are the first of
    the pending lines, as many as there were prompts, and the lines
    after them are still pending. *)
Theorem select_audio_stream_reads_in_order (py : python) (ans : answers)
    (video_path : string) (w : world) (r : option Z) :
  let run := select_audio_stream py ans video_path w in
  result_of run = Return r ->
  exists consumed,
    stdin w = consumed ++ stdin (world_of run)
    /\ List.length consumed
       = List.length (List.filter is_input (events_of run)).
Proof.
  cbv zeta.
  destruct (probe ans) as [stderr|streams|msg] eqn:Hprobe.
  { rewrite (select_probe_fails py ans video_path w stderr Hprobe).
    project_out. intros _. exists []. auto. }
  2: { rewrite (select_probe_crashes py ans video_path w msg Hprobe).
       project_out. discriminate. }
  destruct (List.filter is_audio streams) as [|s1 [|s2 more]] eqn:Hf.
  - rewrite (select_no_audio py ans video_path w streams Hprobe Hf).
    project_out. intros _. exists []. auto.
  - rewrite (select_single py ans video_path w streams s1 Hprobe Hf).
    project_out. intros _. exists []. auto.
  - assert (1 < List.length (List.filter is_audio streams))%nat as Hlen
        by (rewrite Hf; simpl; lia).
    rewrite (select_multiple py ans video_path w streams Hprobe Hlen).
    cbv zeta. project_out.
    destruct (choice_loop py (List.length (List.filter is_audio streams))
                (stdin w)) as [[evs rest] [c|e]] eqn:E;
      cbn [fst snd chosen stdin]; [|discriminate].
    intros _. destruct (choice_loop_reads _ _ _ _ _ _ E)
      as (consumed & Hin & Hcount).
    exists consumed. split; [exact Hin|].
    rewrite !List.filter_app, menu_lines_no_input. exact Hcount.
Qed.

Lemma select_audio_stream_reads_in_order_witness :
  exists consumed,
    ["x"; "7"; " 2 "; "1"]%string
    = consumed
      ++ stdin (world_of (select_audio_stream AsciiPython.py
                            Examples.two_streams "C:\anime\ep2.mkv"
                            (Examples.empty_disk
                               ["x"; "7"; " 2 "; "1"]%string)))
    /\ List.length consumed
       = List.length
           (List.filter is_input
              (events_of (select_audio_stream AsciiPython.py
                            Examples.two_streams "C:\anime\ep2.mkv"
                            (Examples.empty_disk
                               ["x"; "7"; " 2 "; "1"]%string)))).
Proof.
  apply (select_audio_stream_reads_in_order AsciiPython.py
           Examples.two_streams "C:\anime\ep2.mkv"
           (Examples.empty_disk ["x"; "7"; " 2 "; "1"]%string) (Some 1)).
  vm_compute. reflexivity.
Defined.
